(** * process_videos: a shallow embedding of [src/process_videos.py]

    The script batch-renders video projects by driving two external tools,
    [ffprobe] and [ffmpeg].  The embedding follows the script function by
    function:

    - Python [str] values are [string]s (ASCII; the non-ASCII digits and
      white space that [\d], [int] and [strip] also accept are outside
      the model);
    - Python [int] is [Z]; the limit on the number of digits that [int]
      converts from a string (4300 by default) is not modelled, and the
      statements that depend on it are made for short lines;
    - Python [float] is IEEE-754 binary64, modelled by the executable
      specification [SpecFloat] of the standard library ([prec = 53],
      [emax = 1024], round to nearest even);
    - exceptions are values of [exn]; a computation is a function from a
      state to a [result] and a state, and the state carries the file
      system and the log of observable events (printed lines, probes,
      launched processes, progress-bar refreshes);
    - what the script does not define is a field of the environment [Env]:
      the two external tools, the builtin [float] parser, the rendering of
      floats, and the truth value of a [tqdm] bar (tested by [and pbar] and
      [if pbar]), which is taken to be defined: the statements that depend
      on it are made for finite totals;
    - file-system calls themselves do not fail (no permission errors, no
      [mkdir] over a regular file, no [iterdir] of a regular file: the
      statements that depend on it say so), and a directory scan yields
      the entries in the order of the list that models the file system.

    The definitions come first; the lemmas and the theorems on the claims
    C1 to C10 follow, and after them further properties of the code, X1
    to X21. *)

From Stdlib Require Import ZArith List String Ascii Bool Lia QArith.
From Stdlib Require Import Numbers.DecimalString.
From Stdlib Require Import Floats.SpecFloat.
Import ListNotations.

Local Open Scope list_scope.
Local Open Scope string_scope.
Local Open Scope Z_scope.

(** ** Exceptions and results *)

Inductive exn : Type :=
| CalledProcessError (returncode : Z) (cmd : list string)
| ValueError
| OverflowError
| ZeroDivisionError
| SystemExit (code : Z).

Inductive result (A : Type) : Type :=
| Ok (a : A)
| Raise (e : exn).

Arguments Ok {A} a.
Arguments Raise {A} e.

Definition rbind {A B : Type} (r : result A) (k : A -> result B) : result B :=
  match r with
  | Ok a => k a
  | Raise e => Raise e
  end.

(** ** Python strings *)

Module Py.

Definition chr (n : nat) : ascii := ascii_of_nat n.

Definition LF : ascii := chr 10.
Definition CR : ascii := chr 13.

(** [str.isspace] on the ASCII range: TAB, LF, VT, FF, CR, FS, GS, RS, US
    and the space. *)
Definition is_space (a : ascii) : bool :=
  let n := nat_of_ascii a in
  ((9 <=? n) && (n <=? 13) || (28 <=? n) && (n <=? 32))%nat.

Definition is_digit (a : ascii) : bool :=
  let n := nat_of_ascii a in
  ((48 <=? n) && (n <=? 57))%nat.

Definition digit_val (a : ascii) : Z := Z.of_nat (nat_of_ascii a) - 48.

Fixpoint lstrip (s : string) : string :=
  match s with
  | String a r => if is_space a then lstrip r else s
  | EmptyString => EmptyString
  end.

(** [rstrip] keeps a character when it is not white space or when
    something that is kept follows it. *)
Fixpoint rstrip (s : string) : string :=
  match s with
  | String a r =>
      match rstrip r with
      | EmptyString => if is_space a then EmptyString else String a EmptyString
      | r' => String a r'
      end
  | EmptyString => EmptyString
  end.

Definition strip (s : string) : string := rstrip (lstrip s).

(** [needle in hay] *)
Fixpoint contains (needle hay : string) : bool :=
  if prefix needle hay then true
  else match hay with
       | String _ r => contains needle r
       | EmptyString => false
       end.

Fixpoint endswith (s suffix : string) : bool :=
  if String.eqb s suffix then true
  else match s with
       | String _ r => endswith r suffix
       | EmptyString => false
       end.

(** [sep.join(parts)] *)
Fixpoint join (sep : string) (parts : list string) : string :=
  match parts with
  | [] => ""
  | [p] => p
  | p :: rest => p ++ sep ++ join sep rest
  end.

(** [s.split(sep)] for a one-character separator: never empty. *)
Fixpoint split_from (sep : ascii) (cur s : string) : list string :=
  match s with
  | String a r =>
      if Ascii.eqb a sep then cur :: split_from sep "" r
      else split_from sep (cur ++ String a "") r
  | EmptyString => [cur]
  end.

Definition split (sep : ascii) (s : string) : list string :=
  split_from sep "" s.

(** Line boundaries of [str.splitlines] on the ASCII range: LF, VT, FF,
    CR, CR LF, FS, GS, RS. *)
Definition is_linebreak (a : ascii) : bool :=
  let n := nat_of_ascii a in
  ((10 <=? n) && (n <=? 13) || (28 <=? n) && (n <=? 30))%nat.

Fixpoint splitlines_from (cur s : string) : list string :=
  match s with
  | String a r =>
      if Ascii.eqb a CR then
        match r with
        | String b r' =>
            if Ascii.eqb b LF then cur :: splitlines_from "" r'
            else cur :: splitlines_from "" r
        | EmptyString => [cur]
        end
      else if is_linebreak a then cur :: splitlines_from "" r
      else splitlines_from (cur ++ String a "") r
  | EmptyString =>
      match cur with
      | EmptyString => []
      | _ => [cur]
      end
  end.

Definition splitlines (s : string) : list string := splitlines_from "" s.

Definition lower_char (a : ascii) : ascii :=
  let n := nat_of_ascii a in
  if ((65 <=? n) && (n <=? 90))%nat then chr (n + 32) else a.

Fixpoint lower (s : string) : string :=
  match s with
  | String a r => String (lower_char a) (lower r)
  | EmptyString => EmptyString
  end.

(** [str(n)] for an [int]. *)
Definition str_int (z : Z) : string := NilZero.string_of_int (Z.to_int z).

(** The digits of an [int] literal: groups of decimal digits separated
    by single underscores.  [acc] is the value read so far, [after_digit]
    tells whether the previous character was a digit. *)
Fixpoint int_digits (acc : Z) (after_digit : bool) (s : string) : option Z :=
  match s with
  | String a r =>
      if is_digit a then int_digits (10 * acc + digit_val a) true r
      else if Ascii.eqb a "_" then
        if after_digit then
          match r with
          | EmptyString => None
          | _ => int_digits acc false r
          end
        else None
      else None
  | EmptyString => if after_digit then Some acc else None
  end.

(** The white space [int] skips around a number in an ASCII string: the
    six characters of the C locale.  ([str.strip] also takes the codes 28
    to 31 for white space; [int] does not.) *)
Definition is_c_space (a : ascii) : bool :=
  let n := nat_of_ascii a in
  ((9 <=? n) && (n <=? 13) || (n =? 32))%nat.

Fixpoint lstrip_c (s : string) : string :=
  match s with
  | String a r => if is_c_space a then lstrip_c r else s
  | EmptyString => EmptyString
  end.

Fixpoint rstrip_c (s : string) : string :=
  match s with
  | String a r =>
      match rstrip_c r with
      | EmptyString =>
          if is_c_space a then EmptyString else String a EmptyString
      | r' => String a r'
      end
  | EmptyString => EmptyString
  end.

Definition strip_c (s : string) : string := rstrip_c (lstrip_c s).

(** [int(s)]: white space skipped, an optional sign, decimal digits. *)
Definition int (s : string) : result Z :=
  let body (neg : bool) (d : string) :=
    match int_digits 0 false d with
    | Some v => Ok (if neg then - v else v)
    | None => Raise ValueError
    end in
  match strip_c s with
  | String "-" d => body true d
  | String "+" d => body false d
  | d => body false d
  end.

End Py.

(** ** Python floats: IEEE-754 binary64 *)

Module F64.

Definition float : Type := spec_float.

Definition prec : Z := 53.
Definition emax : Z := 1024.

Definition add : float -> float -> float := SFadd prec emax.
Definition sub : float -> float -> float := SFsub prec emax.
Definition mul : float -> float -> float := SFmul prec emax.
Definition div : float -> float -> float := SFdiv prec emax.

Definition ltb : float -> float -> bool := SFltb.
Definition leb : float -> float -> bool := SFleb.
Definition eqb : float -> float -> bool := SFeqb.

(** The binary64 number nearest to an integer (ties to even); an
    infinity when the integer is out of range. *)
Definition round_Z (z : Z) : float := binary_normalize prec emax z 0 false.

Definition zero : float := S754_zero false.

(** Conversion of an [int] operand in mixed arithmetic; an [int] too
    large to convert raises [OverflowError]. *)
Definition of_int (z : Z) : result float :=
  match round_Z z with
  | S754_infinity _ => Raise OverflowError
  | f => Ok f
  end.

(** [bool(x)]: every float but the two zeros is true. *)
Definition truthy (x : float) : bool := negb (eqb x zero).

(** [int(x)]: truncation towards zero. *)
Definition trunc (x : float) : result Z :=
  match x with
  | S754_zero _ => Ok 0
  | S754_finite s m e =>
      let a := match e with
               | Zneg p => Z.shiftr (Zpos m) (Zpos p)
               | _ => Z.shiftl (Zpos m) e
               end in
      Ok (if s then - a else a)
  | S754_infinity _ => Raise OverflowError
  | S754_nan => Raise ValueError
  end.

(** [min(a, b)] of the builtins: the first argument unless the second is
    strictly smaller. *)
Definition min (a b : float) : float := if ltb b a then b else a.

(** [a / b] for two [int]s: the correctly rounded quotient. *)
Definition int_truediv (a b : Z) : result float :=
  let mag (z : Z) : float :=
    match z with
    | Z0 => S754_zero false
    | Zpos p => S754_finite false p 0
    | Zneg p => S754_finite true p 0
    end in
  if Z.eqb b 0 then Raise ZeroDivisionError
  else match div (mag a) (mag b) with
       | S754_infinity _ => Raise OverflowError
       | q => Ok q
       end.

(** The rational number a finite float stands for. *)
Definition to_Q (x : float) : Q :=
  match x with
  | S754_finite s m e =>
      let v := match e with
               | Zneg p => Zpos m # Pos.pow 2 p
               | _ => inject_Z (Zpos m * 2 ^ e)
               end in
      if s then Qopp v else v
  | _ => 0%Q
  end.

Definition is_finite (x : float) : bool :=
  match x with
  | S754_zero _ | S754_finite _ _ _ => true
  | _ => false
  end.

Definition is_nan (x : float) : bool :=
  match x with
  | S754_nan => true
  | _ => false
  end.

(** Zero or above, the negative zero included: [0 <= x] holds. *)
Definition nonneg (x : float) : bool :=
  match x with
  | S754_zero _ | S754_infinity false | S754_finite false _ _ => true
  | _ => false
  end.

End F64.

(** A number that may be an [int] or a [float]. *)
Inductive pynum : Type :=
| PyInt (z : Z)
| PyFloat (x : F64.float).

(** ** Paths and the file system *)

Module Path.

(** [p / name] *)
Definition child (p name : string) : string := p ++ "/" ++ name.

(** [p.name]: the last component. *)
Definition name (p : string) : string := last (Py.split "/" p) "".

(** [p.parent] *)
Definition parent (p : string) : string :=
  Py.join "/" (removelast (Py.split "/" p)).

End Path.

Inductive kind : Type := File | Dir.

(** The entries of the file system, in the order in which a directory
    scan yields them. *)
Definition filesystem : Type := list (string * kind).

Module FS.

Fixpoint lookup (fs : filesystem) (p : string) : option kind :=
  match fs with
  | (q, k) :: rest => if String.eqb q p then Some k else lookup rest p
  | [] => None
  end.

(** [p.exists()] *)
Definition exists_ (fs : filesystem) (p : string) : bool :=
  match lookup fs p with
  | Some _ => true
  | None => false
  end.

(** [p.is_dir()] *)
Definition is_dir (fs : filesystem) (p : string) : bool :=
  match lookup fs p with
  | Some Dir => true
  | _ => false
  end.

Definition is_file (fs : filesystem) (p : string) : bool :=
  match lookup fs p with
  | Some File => true
  | _ => false
  end.

(** [p.mkdir(parents=True, exist_ok=True)] below an existing directory. *)
Definition mkdir (fs : filesystem) (p : string) : filesystem :=
  if exists_ fs p then fs else (fs ++ [(p, Dir)])%list.

(** [d.iterdir()] *)
Definition iterdir (fs : filesystem) (d : string) : list string :=
  map fst (filter (fun e => String.eqb (Path.parent (fst e)) d) fs).

(** [d.glob("*.mp4")] *)
Definition glob_mp4 (fs : filesystem) (d : string) : list string :=
  filter (fun p => Py.endswith (Path.name p) ".mp4") (iterdir fs d).

End FS.

(** ** Observable events, the state and the monad *)

Inductive event : Type :=
| Print (line : string)
    (** a line written by [print] *)
| Probe (cmd : list string)
    (** [subprocess.run] of an [ffprobe] command *)
| Launch (cmd : list string) (total_duration : option F64.float) (desc : string)
    (** [subprocess.Popen] of a command by [run_ffmpeg_with_progress],
        with the [total_duration] and [desc] the runner was called with *)
| Refresh (n : F64.float)
    (** [pbar.refresh()] with the value of [pbar.n] it shows *)
| Close (n : F64.float).
    (** [pbar.close()] with the final [pbar.n] *)

Record state : Type := mkState {
  fs : filesystem;
  log : list event
}.

(** What the script does not define itself. *)
Record Env : Type := mkEnv {
  (** [float(s)]; [None] is a [ValueError] *)
  py_float : string -> option F64.float;
  (** [str(x)] of a float, as an f-string field renders it *)
  str_float : F64.float -> string;
  (** the [.2f] rendering of a float *)
  fmt_2f : F64.float -> string;
  (** [bool(pbar)] of a [tqdm] bar created with the given [total] *)
  pbar_truthy : F64.float -> bool;
  (** [ffprobe]: return code and standard output *)
  ffprobe : filesystem -> list string -> Z * string;
  (** [ffmpeg]: the lines of its diagnostic stream, its return code and
      the file system it leaves *)
  ffmpeg : filesystem -> list string -> list string * Z * filesystem
}.

Definition M (A : Type) : Type := state -> result A * state.

Definition ret {A : Type} (a : A) : M A := fun st => (Ok a, st).

Definition raise {A : Type} (e : exn) : M A := fun st => (Raise e, st).

Definition bind {A B : Type} (c : M A) (k : A -> M B) : M B :=
  fun st =>
    match c st with
    | (Ok a, st') => k a st'
    | (Raise e, st') => (Raise e, st')
    end.

Definition lift {A : Type} (r : result A) : M A := fun st => (r, st).

Definition emit (e : event) : M unit :=
  fun st => (Ok tt, mkState (fs st) (log st ++ [e])%list).

Definition get_fs : M filesystem := fun st => (Ok (fs st), st).

Definition put_fs (f : filesystem) : M unit :=
  fun st => (Ok tt, mkState f (log st)).

Declare Scope monad_scope.
Delimit Scope monad_scope with monad.

Notation "x <- c ;; k" := (bind c (fun x => k))
  (at level 61, c at next level, right associativity) : monad_scope.
Notation "c ;; k" := (bind c (fun _ => k))
  (at level 61, right associativity) : monad_scope.
Notation "' pat <- c ;; k" := (bind c (fun x => match x with pat => k end))
  (at level 61, pat pattern, c at next level, right associativity) : monad_scope.

Local Open Scope monad_scope.

(** [for x in xs: body(x)]: the first exception ends the loop. *)
Fixpoint for_each {A : Type} (body : A -> M unit) (xs : list A) : M unit :=
  match xs with
  | [] => ret tt
  | x :: rest => body x ;; for_each body rest
  end.

(** ** Regular expressions: the fragment [time_pattern] is written in *)

Module Re.

(** One-character classes: a literal, [\d], and [.] (anything but a
    line feed). *)
Inductive cls : Type :=
| Chr (a : ascii)
| Digit
| Dot.

Definition cls_match (c : cls) (a : ascii) : bool :=
  match c with
  | Chr b => Ascii.eqb a b
  | Digit => Py.is_digit a
  | Dot => negb (Ascii.eqb a Py.LF)
  end.

(** A pattern is a sequence of items: one character of a class, or a
    capturing group [(c+)] with a greedy repetition. *)
Inductive item : Type :=
| One (c : cls)
| Group (c : cls).

(** A greedy group [(c+)] followed by the rest [k] of the pattern:
    [taken] is what the group holds so far.  The group first tries to
    take one more character and gives it back when the rest fails. *)
Fixpoint run_group (k : string -> option (list string)) (c : cls)
    (taken s : string) {struct s} : option (list string) :=
  match s with
  | String a r =>
      if cls_match c a then
        match run_group k c (taken ++ String a "") r with
        | Some g => Some g
        | None =>
            match k r with
            | Some g => Some ((taken ++ String a "") :: g)
            | None => None
            end
        end
      else None
  | EmptyString => None
  end.

(** Backtracking match of a pattern at the start of a string; the result
    lists the captured groups. *)
Fixpoint match_here (p : list item) : string -> option (list string) :=
  match p with
  | [] => fun _ => Some []
  | One c :: p' =>
      fun s =>
        match s with
        | String a r => if cls_match c a then match_here p' r else None
        | EmptyString => None
        end
  | Group c :: p' => run_group (match_here p') c ""
  end.

(** [pattern.search(s).groups()]: the leftmost match. *)
Fixpoint search (p : list item) (s : string) : option (list string) :=
  match match_here p s with
  | Some g => Some g
  | None =>
      match s with
      | String _ r => search p r
      | EmptyString => None
      end
  end.

Definition lit (s : string) : list item :=
  map (fun a => One (Chr a)) (list_ascii_of_string s).

End Re.

(** ** [run_ffmpeg_with_progress] *)

(** [re.compile(r"time=(\d+):(\d+):(\d+).(\d+)")] *)
Definition time_pattern : list Re.item :=
  (Re.lit "time="
   ++ [Re.Group Re.Digit; Re.One (Re.Chr ":");
       Re.Group Re.Digit; Re.One (Re.Chr ":");
       Re.Group Re.Digit; Re.One Re.Dot;
       Re.Group Re.Digit])%list.

(** [int(h) * 3600 + int(m) * 60 + int(s) + int(ms) / 100.0] *)
Definition to_seconds (h m s ms : Z) : result F64.float :=
  rbind (F64.of_int ms) (fun fms =>
  let frac := F64.div fms (F64.round_Z 100) in
  rbind (F64.of_int (h * 3600 + m * 60 + s)) (fun whole =>
  Ok (F64.add whole frac))).

Definition seconds_of_groups (g : list string) : result F64.float :=
  match g with
  | [h; m; s; ms] =>
      rbind (Py.int h) (fun h' =>
      rbind (Py.int m) (fun m' =>
      rbind (Py.int s) (fun s' =>
      rbind (Py.int ms) (fun ms' =>
      to_seconds h' m' s' ms'))))
  | _ => Raise ValueError
  end.

(** The time-parsing step on one line: [None] when the pattern finds no
    match, the seconds of the leftmost match otherwise. *)
Definition parse_time (line : string) : result (option F64.float) :=
  match Re.search time_pattern line with
  | Some g => rbind (seconds_of_groups g) (fun x => Ok (Some x))
  | None => Ok None
  end.

(** The body of the loop over the diagnostic stream:
    [if "time=" in line and total_duration and pbar]. *)
Definition on_line (E : Env) (total_duration : option F64.float)
    (line : string) : M unit :=
  match total_duration with
  | Some total =>
      if Py.contains "time=" line && F64.truthy total && pbar_truthy E total
      then
        r <- lift (parse_time line) ;;
        match r with
        | Some seconds => emit (Refresh (F64.min seconds total))
        | None => ret tt
        end
      else ret tt
  | None => ret tt
  end.

(** The runner.  The child process is the environment's [ffmpeg]: the file
    system it leaves is recorded when it is launched, its diagnostic lines
    are then read one by one, and its return code is inspected last.  The
    bar exists when [total_duration] is true; it is closed, set to its
    total, whatever the return code. *)
Definition run_ffmpeg_with_progress (E : Env) (cmd : list string)
    (total_duration : option F64.float) (desc : string) : M unit :=
  emit (Print ("▶ Running: " ++ Py.join " " cmd)) ;;
  f <- get_fs ;;
  let '(lines, returncode, f') := ffmpeg E f cmd in
  emit (Launch cmd total_duration desc) ;;
  put_fs f' ;;
  for_each (on_line E total_duration) lines ;;
  match total_duration with
  | Some total =>
      if F64.truthy total && pbar_truthy E total
      then emit (Close total) else ret tt
  | None => ret tt
  end ;;
  if negb (returncode =? 0) then raise (CalledProcessError returncode cmd)
  else ret tt.

(** ** The probes *)

(** [subprocess.run(cmd, capture_output=True, text=True, check=True).stdout] *)
Definition run_checked (E : Env) (cmd : list string) : M string :=
  f <- get_fs ;;
  emit (Probe cmd) ;;
  let '(returncode, stdout) := ffprobe E f cmd in
  if negb (returncode =? 0) then raise (CalledProcessError returncode cmd)
  else ret stdout.

Definition duration_cmd (video_path : string) : list string :=
  ["ffprobe"; "-v"; "error";
   "-show_entries"; "format=duration";
   "-of"; "default=noprint_wrappers=1:nokey=1";
   video_path].

Definition get_duration (E : Env) (video_path : string) : M F64.float :=
  stdout <- run_checked E (duration_cmd video_path) ;;
  match py_float E (Py.strip stdout) with
  | Some x => ret x
  | None => raise ValueError
  end.

Definition stream_info_cmd (video_path : string) : list string :=
  ["ffprobe"; "-v"; "error";
   "-select_streams"; "v:0";
   "-show_entries"; "stream=width,height,r_frame_rate";
   "-of"; "default=noprint_wrappers=1:nokey=1";
   video_path].

(** [num / den if den != 0 else 25] *)
Definition fps_of (num den : Z) : result pynum :=
  if negb (den =? 0) then rbind (F64.int_truediv num den) (fun q => Ok (PyFloat q))
  else Ok (PyInt 25).

(** [num, den = map(int, fps_str.split("/"))] followed by the choice of
    the frame rate. *)
Definition parse_fps (fps_str : string) : result pynum :=
  match Py.split "/" fps_str with
  | [a; b] =>
      rbind (Py.int a) (fun num =>
      rbind (Py.int b) (fun den =>
      fps_of num den))
  | _ => Raise ValueError
  end.

(** What [get_stream_info] makes of the standard output of the probe. *)
Definition parse_stream_info (stdout : string) : result (Z * Z * pynum) :=
  match Py.splitlines (Py.strip stdout) with
  | [width; height; fps_str] =>
      rbind (parse_fps fps_str) (fun fps =>
      rbind (Py.int width) (fun w =>
      rbind (Py.int height) (fun h =>
      Ok (w, h, fps))))
  | _ => Raise ValueError
  end.

Definition get_stream_info (E : Env) (video_path : string)
    : M (Z * Z * pynum) :=
  stdout <- run_checked E (stream_info_cmd video_path) ;;
  lift (parse_stream_info stdout).

(** ** [build_crossfade_filter] *)

Definition str_num (E : Env) (n : pynum) : string :=
  match n with
  | PyInt z => Py.str_int z
  | PyFloat x => str_float E x
  end.

(** [offset1 = intro_visible] *)
Definition offset1 (intro_visible : F64.float) : F64.float := intro_visible.

(** [offset2 = offset1 + main_duration - crossfade_dur] *)
Definition offset2 (main_duration intro_visible crossfade_dur : F64.float)
    : F64.float :=
  F64.sub (F64.add (offset1 intro_visible) main_duration) crossfade_dur.

(** [int(intro_visible * 1000)] *)
Definition intro_ms (intro_visible : F64.float) : result Z :=
  F64.trunc (F64.mul intro_visible (F64.round_Z 1000)).

(** [max(0, main_duration - crossfade_dur)] *)
Definition fade_start (main_duration crossfade_dur : F64.float) : pynum :=
  let d := F64.sub main_duration crossfade_dur in
  if F64.ltb F64.zero d then PyFloat d else PyInt 0.

Definition build_crossfade_filter (E : Env)
    (intro_img main_video outro_img : string) (main_duration : F64.float)
    (w h : Z) (fps : pynum)
    (intro_visible crossfade_dur outro_visible : F64.float) : result string :=
  let o1 := offset1 intro_visible in
  let o2 := offset2 main_duration intro_visible crossfade_dur in
  rbind (intro_ms intro_visible) (fun ms =>
  let fps_s := str_num E fps in
  let w_s := Py.str_int w in
  let h_s := Py.str_int h in
  let cf_s := str_float E crossfade_dur in
  let ms_s := Py.str_int ms in
  let norm (src dst : string) :=
    src ++ "fps=" ++ fps_s ++ ",scale=" ++ w_s ++ ":" ++ h_s
        ++ ":force_original_aspect_ratio=decrease,"
        ++ "pad=" ++ w_s ++ ":" ++ h_s ++ ":(ow-iw)/2:(oh-ih)/2,setsar=1"
        ++ dst ++ ";" in
  Ok (norm "[1:v]" "[vmain]"
      ++ norm "[0:v]" "[vintro]"
      ++ norm "[2:v]" "[voutro]"
      ++ "[vintro][vmain]xfade=transition=fade:duration=" ++ cf_s
      ++ ":offset=" ++ str_float E o1 ++ "[im];"
      ++ "[im][voutro]xfade=transition=fade:duration=" ++ cf_s
      ++ ":offset=" ++ str_float E o2 ++ "[outv];"
      ++ "[1:a]afade=t=out:st="
      ++ str_num E (fade_start main_duration crossfade_dur)
      ++ ":d=" ++ cf_s ++ "[a1];"
      ++ "[a1]adelay=" ++ ms_s ++ "|" ++ ms_s
      ++ ",asetpts=PTS-STARTPTS[aout]")).

(** ** [process_project] *)

(** The codec selection of [process_project]. *)
Definition select_vcodec (codec : string) : list string :=
  if String.eqb codec "h265" then
    ["-c:v"; "libx265"; "-pix_fmt"; "yuv420p"; "-x265-params"; "crf=28"]
  else if String.eqb codec "h264" then
    ["-c:v"; "h264_nvenc"; "-pix_fmt"; "yuv420p"]
  else
    ["-c:v"; "hevc_nvenc"; "-preset"; "p7"; "-tune"; "hq";
     "-pix_fmt"; "yuv420p"].

Definition normalize_cmd (main_video normalized_video : string)
    : list string :=
  ["ffmpeg"; "-y";
   "-i"; main_video;
   "-af"; "loudnorm=I=-16:TP=-1.5:LRA=11";
   normalized_video].

Definition render_cmd (intro_img normalized_video outro_img filter_complex
    : string) (vcodec : list string) (final_video : string) : list string :=
  (["ffmpeg"; "-y";
    "-loop"; "1"; "-t"; "5"; "-i"; intro_img;
    "-i"; normalized_video;
    "-loop"; "1"; "-t"; "5"; "-i"; outro_img;
    "-filter_complex"; filter_complex;
    "-map"; "[outv]"; "-map"; "[aout]"]
   ++ vcodec
   ++ ["-c:a"; "aac"; "-b:a"; "192k";
       final_video])%list.

Definition work_dir (proj_dir : string) : string :=
  Path.child proj_dir "02_Work".
Definition final_dir (proj_dir : string) : string :=
  Path.child proj_dir "03_Final".
Definition normalized_video (proj_dir : string) : string :=
  Path.child (work_dir proj_dir) "normalized.mp4".
Definition final_video (proj_dir : string) : string :=
  Path.child (final_dir proj_dir) (Path.name proj_dir ++ "_final.mp4").

(** The two pipeline stages, entered once the three inputs are found. *)
Definition run_pipeline (E : Env) (proj_dir codec main_video : string)
    : M unit :=
  let intro_img := Path.child proj_dir "intro.png" in
  let outro_img := Path.child proj_dir "outro.png" in
  raw_dur <- get_duration E main_video ;;
  run_ffmpeg_with_progress E
    (normalize_cmd main_video (normalized_video proj_dir))
    (Some raw_dur) "Normalizing" ;;
  main_dur <- get_duration E (normalized_video proj_dir) ;;
  emit (Print ("⏱ Main video duration: " ++ fmt_2f E main_dur ++ " sec")) ;;
  '(w, h, fps) <- get_stream_info E (normalized_video proj_dir) ;;
  filter_complex <-
    lift (build_crossfade_filter E intro_img (normalized_video proj_dir)
            outro_img main_dur w h fps
            (F64.round_Z 4) (F64.round_Z 1) (F64.round_Z 4)) ;;
  let vcodec := select_vcodec codec in
  let total_proj_duration := F64.add main_dur (F64.round_Z 8) in
  run_ffmpeg_with_progress E
    (render_cmd intro_img (normalized_video proj_dir) outro_img
       filter_complex vcodec (final_video proj_dir))
    (Some total_proj_duration) "Rendering" ;;
  emit (Print ("✅ Finished project: " ++ Path.name proj_dir)) ;;
  emit (Print ("🎬 Final video: " ++ final_video proj_dir ++ String Py.LF "")).

Definition process_project (E : Env) (proj_dir codec : string) : M unit :=
  emit (Print (String Py.LF "🚀 Processing project: " ++ Path.name proj_dir)) ;;
  f <- get_fs ;;
  put_fs (FS.mkdir (FS.mkdir f (work_dir proj_dir)) (final_dir proj_dir)) ;;
  f <- get_fs ;;
  match FS.glob_mp4 f proj_dir with
  | [] => emit (Print ("⚠️ No main video found in " ++ proj_dir))
  | main_video :: _ =>
      if negb (FS.exists_ f (Path.child proj_dir "intro.png"))
         || negb (FS.exists_ f (Path.child proj_dir "outro.png"))
      then emit (Print ("⚠️ Missing intro/outro in " ++ proj_dir))
      else run_pipeline E proj_dir codec main_video
  end.

(** ** [main] *)

(** The codec named after the first [--codec] of [sys.argv], lower-cased;
    [h265_nvenc] when the flag or its value is absent. *)
Fixpoint codec_of_argv (argv : list string) : string :=
  match argv with
  | a :: rest =>
      if String.eqb a "--codec" then
        match rest with
        | v :: _ => Py.lower v
        | [] => "h265_nvenc"
        end
      else codec_of_argv rest
  | [] => "h265_nvenc"
  end.

(** [root] is the directory of the script. *)
Definition main (E : Env) (root : string) (argv : list string) : M unit :=
  let VID_DIR := Path.child root "VID" in
  f <- get_fs ;;
  if negb (FS.exists_ f VID_DIR) then
    emit (Print ("❌ No 'VID' folder found at " ++ VID_DIR)) ;;
    raise (SystemExit 1)
  else
    let codec := codec_of_argv argv in
    let proj_dirs := filter (FS.is_dir f) (FS.iterdir f VID_DIR) in
    for_each (fun proj_dir => process_project E proj_dir codec) proj_dirs.

(** The exit status of the interpreter: the code of [sys.exit], 1 after
    any other uncaught exception, 0 after a normal end. *)
Definition exit_status (r : result unit) : Z :=
  match r with
  | Ok _ => 0
  | Raise (SystemExit code) => code
  | Raise _ => 1
  end.

(** ** A scripted environment

    A stand-in for the external tools, used to run the model on concrete
    batches: [ffprobe] answers for the files that exist, [ffmpeg] writes
    its last argument and prints the given diagnostic lines. *)

Module Fixture.

(** Decimal literals [digits] and [digits.digits], correctly rounded. *)
Definition parse_decimal (s : string) : option F64.float :=
  let to_option (r : result F64.float) :=
    match r with
    | Ok x => Some x
    | Raise _ => None
    end in
  match Py.split "." s with
  | [a] =>
      match Py.int_digits 0 false a with
      | Some n => to_option (F64.of_int n)
      | None => None
      end
  | [a; b] =>
      match Py.int_digits 0 false (a ++ b) with
      | Some n =>
          to_option (F64.int_truediv n (10 ^ Z.of_nat (String.length b)))
      | None => None
      end
  | _ => None
  end.

(** Whole numbers are rendered as [N.0]; other values are not needed. *)
Definition show_float (x : F64.float) : string :=
  match F64.trunc x with
  | Ok n => Py.str_int n ++ ".0"
  | Raise _ => "nan"
  end.

(** The [.2f] rendering of a whole number: [N.00]. *)
Definition show_2f (x : F64.float) : string :=
  match F64.trunc x with
  | Ok n => Py.str_int n ++ ".00"
  | Raise _ => "nan"
  end.

Definition nl (s : string) : string := s ++ String Py.LF "".

Definition probe (f : filesystem) (cmd : list string) : Z * string :=
  if FS.is_file f (last cmd "") then
    if existsb (String.eqb "format=duration") cmd
    then (0, nl "20.0")
    else (0, nl "1920" ++ nl "1080" ++ nl "30/1")
  else (1, "").

(** [failing cmd] tells which commands exit with status 1. *)
Definition encoder (lines : list string) (failing : list string -> bool)
    (f : filesystem) (cmd : list string)
    : list string * Z * filesystem :=
  if failing cmd then (lines, 1, f)
  else (lines, 0, (f ++ [(last cmd "", File)])%list).

Definition env (lines : list string) (failing : list string -> bool) : Env :=
  {| py_float := parse_decimal;
     str_float := show_float;
     fmt_2f := show_2f;
     pbar_truthy := F64.ltb F64.zero;
     ffprobe := probe;
     ffmpeg := encoder lines failing |}.

Definition never (cmd : list string) : bool := false.


(** One project [Demo] with its three inputs. *)
Definition demo_fs : filesystem :=
  [("Demo", Dir);
   ("Demo/main.mp4", File);
   ("Demo/intro.png", File);
   ("Demo/outro.png", File)].

(** A batch of three projects below [/srv/VID]: [A] and [C] are
    complete, [B] lacks its intro image. *)
Definition batch_fs : filesystem :=
  [("/srv/VID", Dir);
   ("/srv/VID/A", Dir);
   ("/srv/VID/A/clip.mp4", File);
   ("/srv/VID/A/intro.png", File);
   ("/srv/VID/A/outro.png", File);
   ("/srv/VID/B", Dir);
   ("/srv/VID/B/clip.mp4", File);
   ("/srv/VID/B/outro.png", File);
   ("/srv/VID/notes.txt", File);
   ("/srv/VID/C", Dir);
   ("/srv/VID/C/clip.mp4", File);
   ("/srv/VID/C/intro.png", File);
   ("/srv/VID/C/outro.png", File)].

Definition start (f : filesystem) : state := mkState f [].

(** Diagnostic streams: timestamps in order, out of order, and beyond a
    total of 20 seconds. *)
Definition progress_lines : list string :=
  [nl "frame=  120 fps= 60 q=28.0 size=     256kB time=00:00:04.00 bitrate= 524.3kbits/s";
   nl "frame=  300 fps= 60 q=28.0 size=     512kB time=00:00:10.00 bitrate= 419.4kbits/s";
   nl "video:500kB audio:80kB subtitle:0kB other streams:0kB"].

Definition out_of_order_lines : list string :=
  [nl "frame=  300 fps= 60 q=28.0 size=     512kB time=00:00:10.00 bitrate= 419.4kbits/s";
   nl "frame=  150 fps= 60 q=28.0 size=     256kB time=00:00:05.00 bitrate= 419.4kbits/s"].

Definition overshoot_lines : list string :=
  [nl "frame=  900 fps= 60 q=28.0 size=    1024kB time=00:00:30.00 bitrate= 279.6kbits/s"].

End Fixture.

(** ** Notions used in the statements *)

(** *** Floats *)

(** [op x y] is computed without rounding: operands and result are
    finite and the result stands for [qop] of the operands. *)
Definition exact (op : F64.float -> F64.float -> F64.float)
    (qop : Q -> Q -> Q) (x y : F64.float) : bool :=
  F64.is_finite x && F64.is_finite y && F64.is_finite (op x y)
  && Qeq_bool (F64.to_Q (op x y)) (qop (F64.to_Q x) (F64.to_Q y)).

(** Each element is [<=] its successor. *)
Fixpoint nondecreasing (l : list F64.float) : bool :=
  match l with
  | a :: (b :: _) as rest => F64.leb a b && nondecreasing rest
  | _ => true
  end.

(** *** Reading the log *)

(** The values shown by the progress bar while the stream is read. *)
Fixpoint published (evs : list event) : list F64.float :=
  match evs with
  | Refresh n :: rest => n :: published rest
  | _ :: rest => published rest
  | [] => []
  end.

(** The processes started by the runner, each with the total duration
    and the label of the call. *)
Fixpoint launches (evs : list event)
    : list (list string * option F64.float * string) :=
  match evs with
  | Launch cmd total desc :: rest => (cmd, total, desc) :: launches rest
  | _ :: rest => launches rest
  | [] => []
  end.

(** The events a computation adds to the log of the state it starts in. *)
Definition events_of {A : Type} (c : M A) (st : state) : list event :=
  skipn (List.length (log st)) (log (snd (c st))).

(** *** The diagnostic stream of a run *)

(** The lines [ffmpeg] prints for a command, and its return code. *)
Definition stream_of (E : Env) (st : state) (cmd : list string)
    : list string :=
  fst (fst (ffmpeg E (fs st) cmd)).

Definition returncode_of (E : Env) (st : state) (cmd : list string) : Z :=
  snd (fst (ffmpeg E (fs st) cmd)).

(** No line of the stream makes the conversion to seconds fail. *)
Definition stream_ok (lines : list string) : bool :=
  forallb (fun line => match parse_time line with
                       | Ok _ => true
                       | Raise _ => false
                       end) lines.

(** The timestamps the reader extracts from the lines of a stream, up to
    the first line on which the conversion fails. *)
Fixpoint stamps (lines : list string) : list F64.float :=
  match lines with
  | line :: rest =>
      if Py.contains "time=" line then
        match parse_time line with
        | Ok (Some x) => x :: stamps rest
        | Ok None => stamps rest
        | Raise _ => []
        end
      else stamps rest
  | [] => []
  end.

(** The bar is updated only when the total is true and the bar is true. *)
Definition tracking (E : Env) (total_duration : option F64.float) : bool :=
  match total_duration with
  | Some total => F64.truthy total && pbar_truthy E total
  | None => false
  end.

(** The refreshes the loop makes for a stream. *)
Definition shown (E : Env) (total_duration : option F64.float)
    (lines : list string) : list event :=
  match total_duration with
  | Some total =>
      if tracking E total_duration
      then map (fun x => Refresh (F64.min x total)) (stamps lines)
      else []
  | None => []
  end.

(** *** Timestamp markers *)

(** A non-empty string of decimal digits, and its value. *)
Fixpoint all_digits (s : string) : bool :=
  match s with
  | String a r => Py.is_digit a && all_digits r
  | EmptyString => true
  end.

Definition digits (s : string) : bool :=
  negb (String.eqb s "") && all_digits s.

Fixpoint decimal (acc : Z) (s : string) : Z :=
  match s with
  | String a r => decimal (10 * acc + Py.digit_val a) r
  | EmptyString => acc
  end.


(** Following the spec's words: [h*3600 + m*60 + s + cc/100], the sum and
    the quotient each rounded to binary64. *)
Definition spec_seconds (h m s cc : Z) : F64.float :=
  F64.add (F64.round_Z (h * 3600 + m * 60 + s))
          (F64.div (F64.round_Z cc) (F64.round_Z 100)).


(** *** Exceptions that end the interpreter on request *)

(** The result is not an exit request. *)
Definition no_exit {A : Type} (r : result A) : Prop :=
  match r with
  | Raise (SystemExit _) => False
  | _ => True
  end.

Definition no_exit_M {A : Type} (c : M A) : Prop :=
  forall st, no_exit (fst (c st)).

(** *** The batch and its projects *)

Definition vid_dir (root : string) : string := Path.child root "VID".

(** The project directories [main] iterates over. *)
Definition proj_dirs (root : string) (st : state) : list string :=
  filter (FS.is_dir (fs st)) (FS.iterdir (fs st) (vid_dir root)).

(** The state in which [process_project] looks for its inputs: the
    heading is printed and the two sub-directories exist. *)
Definition entered (proj_dir : string) (st : state) : state :=
  mkState
    (FS.mkdir (FS.mkdir (fs st) (work_dir proj_dir)) (final_dir proj_dir))
    (log st
     ++ [Print (String Py.LF "🚀 Processing project: " ++ Path.name proj_dir)]).

(** ** Further notions *)

(** A string of [n] zeros. *)
Fixpoint zeros (n : nat) : string :=
  match n with
  | O => ""
  | S k => String "0" (zeros k)
  end.

(** A line whose hours field is 1 followed by 400 zeros. *)
Definition huge_hours_line : string :=
  "time=1" ++ zeros 400 ++ ":00:00.00".

(** What the runner does with the bar after the stream: [pbar.n] is set
    to the total and the bar is closed. *)
Definition closing (E : Env) (total_duration : option F64.float)
    : list event :=
  match total_duration with
  | Some total => if tracking E total_duration then [Close total] else []
  | None => []
  end.

(** The end of a run whose stream was read to its end. *)
Definition exit_outcome (returncode : Z) (cmd : list string) : result unit :=
  if returncode =? 0 then Ok tt
  else Raise (CalledProcessError returncode cmd).

(** No character of the string is white space. *)
Fixpoint plain (s : string) : bool :=
  match s with
  | String a r => negb (Py.is_space a) && plain r
  | EmptyString => true
  end.

(** Every character of the string is white space. *)
Fixpoint blank (s : string) : bool :=
  match s with
  | String a r => Py.is_space a && blank r
  | EmptyString => true
  end.

(** An environment whose probes exit with status [rc] after printing
    [out], whatever the file; the other tools are those of [Fixture]. *)
Definition probe_env (rc : Z) (out : string) : Env :=
  {| py_float := Fixture.parse_decimal;
     str_float := Fixture.show_float;
     fmt_2f := Fixture.show_2f;
     pbar_truthy := F64.ltb F64.zero;
     ffprobe := fun _ _ => (rc, out);
     ffmpeg := Fixture.encoder Fixture.progress_lines Fixture.never |}.

(** The two checks of [process_project] that end it early: no [*.mp4]
    file, or no intro or outro image. *)
Definition incomplete (f : filesystem) (proj_dir : string) : bool :=
  match FS.glob_mp4 f proj_dir with
  | [] => true
  | _ :: _ =>
      negb (FS.exists_ f (Path.child proj_dir "intro.png"))
      || negb (FS.exists_ f (Path.child proj_dir "outro.png"))
  end.

(** The event is a printed line. *)
Definition is_print (ev : event) : bool :=
  match ev with
  | Print _ => true
  | _ => false
  end.

(** A batch of two projects, neither of them complete: [A] has no
    video, [B] no outro image. *)
Definition incomplete_fs : filesystem :=
  [("/srv/VID", Dir);
   ("/srv/VID/A", Dir);
   ("/srv/VID/A/intro.png", File);
   ("/srv/VID/A/outro.png", File);
   ("/srv/VID/B", Dir);
   ("/srv/VID/B/clip.mp4", File);
   ("/srv/VID/B/intro.png", File)].





(** ** Where the model is exact

    Four things the interpreter and its libraries do are not modelled,
    and the statements that depend on them carry one of the conditions
    below.  [int] rejects a digit string of more than 4300 digits
    ([ValueError]; the default limit of the interpreter); [tqdm] replaces
    an infinite total by [None], after which the truth value of the bar
    is undefined ([TypeError]), and is not meant for a total that is no
    number; [mkdir] raises [FileExistsError] when the name is taken by a
    regular file; [iterdir] raises [NotADirectoryError] on a regular
    file. *)

(** At most 4300 characters: no digit run in the string is beyond the
    limit of [int]. *)
Definition short (s : string) : bool :=
  Z.of_nat (String.length s) <=? 4300.

Definition short_lines (lines : list string) : bool := forallb short lines.


(** The total, when there is one, is a finite number: the bar is then
    an ordinary one. *)
Definition finite_total (total_duration : option F64.float) : bool :=
  match total_duration with
  | Some total => F64.is_finite total
  | None => true
  end.


(** The project is a directory and neither sub-directory name is taken
    by a regular file: the two [mkdir] calls succeed. *)
Definition enterable (proj_dir : string) (f : filesystem) : bool :=
  FS.is_dir f proj_dir
  && negb (FS.is_file f (work_dir proj_dir))
  && negb (FS.is_file f (final_dir proj_dir)).




(** An [int] as an operand of the true division: the integer itself,
    whatever its size. *)
Definition int_operand (z : Z) : F64.float :=
  match z with
  | Z0 => S754_zero false
  | Zpos p => S754_finite false p 0
  | Zneg p => S754_finite true p 0
  end.

(** ** Lemmas on strings *)

Lemma append_nil_r (s : string) : s ++ "" = s.
Proof. induction s; simpl; congruence. Qed.

Lemma append_assoc (a b c : string) : (a ++ b) ++ c = a ++ (b ++ c).
Proof. induction a; simpl; congruence. Qed.

Lemma contains_char_cons (c x : ascii) (r : string) :
  Py.contains (String c "") (String x r)
  = Ascii.eqb x c || Py.contains (String c "") r.
Proof.
  cbn [Py.contains prefix].
  destruct (ascii_dec c x) as [->|Hne].
  - rewrite Ascii.eqb_refl. now destruct r.
  - destruct (Ascii.eqb_spec x c); [congruence|reflexivity].
Qed.

Lemma split_from_no_sep (sep : ascii) (a cur : string) :
  Py.contains (String sep "") a = false ->
  Py.split_from sep cur a = [cur ++ a].
Proof.
  revert cur; induction a as [|x r IH]; intros cur H.
  - simpl. now rewrite append_nil_r.
  - rewrite contains_char_cons in H. apply orb_false_elim in H as [Hx Hr].
    simpl. rewrite Hx, IH by assumption.
    now rewrite append_assoc.
Qed.

Lemma split_from_app (sep : ascii) (a b cur : string) :
  Py.contains (String sep "") a = false ->
  Py.split_from sep cur (a ++ String sep b)
  = (cur ++ a) :: Py.split_from sep "" b.
Proof.
  revert cur; induction a as [|x r IH]; intros cur H.
  - simpl. now rewrite Ascii.eqb_refl, append_nil_r.
  - rewrite contains_char_cons in H. apply orb_false_elim in H as [Hx Hr].
    simpl. rewrite Hx, IH by assumption.
    now rewrite append_assoc.
Qed.

Lemma split_pair (sep : ascii) (a b : string) :
  Py.contains (String sep "") a = false ->
  Py.contains (String sep "") b = false ->
  Py.split sep (a ++ String sep b) = [a; b].
Proof.
  intros Ha Hb. unfold Py.split.
  now rewrite split_from_app, split_from_no_sep.
Qed.

(** ** Lemmas on binary64: the order, and the sign of rounded results *)

Module F64Facts.
Import F64.

Lemma compare_antisym (x y : float) (c : comparison) :
  SFcompare x y = Some c -> SFcompare y x = Some (CompOpp c).
Proof.
  destruct x as [sx|sx| |sx mx ex], y as [sy|sy| |sy my ey];
    simpl; try discriminate;
    try (intros [= <-]; destruct sx; try destruct sy; reflexivity);
    try (intros [= <-]; destruct sy; reflexivity).
  intros [= <-]. f_equal.
  assert (Hm : Pos.compare_cont Eq my mx = CompOpp (Pos.compare_cont Eq mx my))
    by (rewrite Pos.compare_cont_antisym; reflexivity).
  rewrite (Z.compare_antisym ex ey), Hm.
  destruct sx, sy; try reflexivity;
    destruct (ex ?= ey); simpl; try reflexivity;
    destruct (Pos.compare_cont Eq mx my); reflexivity.
Qed.

Lemma leb_refl (x : float) : is_nan x = false -> leb x x = true.
Proof.
  unfold leb, SFleb.
  destruct x as [s|s| |s m e]; simpl; try discriminate; intros _.
  - reflexivity.
  - now destruct s.
  - destruct s; rewrite Z.compare_refl, Pos.compare_cont_refl; reflexivity.
Qed.

Lemma compare_some (x y : float) :
  is_nan x = false -> is_nan y = false -> exists c, SFcompare x y = Some c.
Proof.
  destruct x, y; simpl; try discriminate; intros _ _; eauto.
Qed.

Lemma not_ltb_leb (x y : float) :
  is_nan x = false -> is_nan y = false -> ltb x y = false -> leb y x = true.
Proof.
  intros Hx Hy. unfold ltb, leb, SFltb, SFleb.
  destruct (compare_some x y Hx Hy) as [c Hc].
  rewrite Hc, (compare_antisym _ _ _ Hc).
  destruct c; simpl; congruence.
Qed.

Lemma leb_not_nan (x y : float) :
  leb x y = true -> is_nan x = false /\ is_nan y = false.
Proof.
  unfold leb, SFleb. destruct x, y; simpl; try discriminate; auto.
Qed.

Lemma ltb_not_nan (x y : float) :
  ltb x y = true -> is_nan x = false /\ is_nan y = false.
Proof.
  unfold ltb, SFltb. destruct x, y; simpl; try discriminate; auto.
Qed.

Lemma nonneg_leb_zero (x : float) : nonneg x = true -> leb zero x = true.
Proof.
  destruct x as [s|s| |s m e]; simpl; try discriminate; try reflexivity;
    destruct s; try discriminate; reflexivity.
Qed.

Lemma nonneg_not_nan (x : float) : nonneg x = true -> is_nan x = false.
Proof. destruct x; simpl; congruence. Qed.

Ltac order_cases :=
  repeat match goal with
    | |- context [Pos.compare_cont Eq ?a ?b] =>
        change (Pos.compare_cont Eq a b) with (Pos.compare a b)
    | |- context [Z.compare ?a ?b] => destruct (Z.compare_spec a b)
    | |- context [Pos.compare ?a ?b] => destruct (Pos.compare_spec a b)
    end;
  simpl; intros;
  first [reflexivity | discriminate | congruence | exfalso; lia].

Lemma leb_trans (a b c : float) :
  leb a b = true -> leb b c = true -> leb a c = true.
Proof.
  unfold leb, SFleb, SFcompare.
  destruct a as [sa|sa| |sa ma ea], b as [sb|sb| |sb mb eb],
           c as [sc|sc| |sc mc ec];
    try destruct sa; try destruct sb; try destruct sc;
    try (simpl; intros; first [reflexivity | discriminate | congruence]);
    order_cases.
Qed.

Lemma ltb_leb_trans (a b c : float) :
  ltb a b = true -> leb b c = true -> ltb a c = true.
Proof.
  unfold ltb, leb, SFltb, SFleb, SFcompare.
  destruct a as [sa|sa| |sa ma ea], b as [sb|sb| |sb mb eb],
           c as [sc|sc| |sc mc ec];
    try destruct sa; try destruct sb; try destruct sc;
    try (simpl; intros; first [reflexivity | discriminate | congruence]);
    order_cases.
Qed.

(** *** Signs of rounded results *)

Lemma shr_1_nonneg (mrs : shr_record) :
  0 <= shr_m mrs -> 0 <= shr_m (shr_1 mrs).
Proof.
  destruct mrs as [m r s]; simpl.
  destruct m as [|p|p]; simpl; try lia; destruct p; simpl; lia.
Qed.

Lemma iter_shr_1_nonneg (p : positive) (mrs : shr_record) :
  0 <= shr_m mrs -> 0 <= shr_m (iter_pos shr_1 p mrs).
Proof.
  revert mrs; induction p as [p IH|p IH|]; intros mrs H; simpl.
  - apply IH, IH, shr_1_nonneg, H.
  - apply IH, IH, H.
  - apply shr_1_nonneg, H.
Qed.

Lemma shr_fexp_nonneg (m e : Z) (l : location) :
  0 <= m -> 0 <= shr_m (fst (shr_fexp prec emax m e l)).
Proof.
  intros H. unfold shr_fexp, shr.
  assert (H0 : 0 <= shr_m (shr_record_of_loc m l))
    by (destruct l as [|[| |]]; exact H).
  destruct (fexp prec emax (Zdigits2 m + e) - e); simpl;
    auto using iter_shr_1_nonneg.
Qed.

Lemma round_nearest_even_nonneg (m : Z) (l : location) :
  0 <= m -> 0 <= round_nearest_even m l.
Proof.
  intros H. unfold round_nearest_even.
  destruct l as [|[| |]]; try destruct (Z.even m); lia.
Qed.

Lemma binary_round_aux_nonneg (m e : Z) (l : location) :
  0 <= m -> nonneg (binary_round_aux prec emax false m e l) = true.
Proof.
  intros H. unfold binary_round_aux.
  pose proof (shr_fexp_nonneg m e l H) as H1.
  destruct (shr_fexp prec emax m e l) as [mrs' e'].
  simpl in H1.
  pose proof (shr_fexp_nonneg _ e' loc_Exact
                (round_nearest_even_nonneg (shr_m mrs')
                   (loc_of_shr_record mrs') H1)) as H2.
  destruct (shr_fexp prec emax _ e' loc_Exact) as [mrs'' e''].
  simpl in H2.
  destruct (shr_m mrs'') as [|p|p]; [reflexivity| |lia].
  now destruct (e'' <=? emax - prec).
Qed.

Lemma binary_round_nonneg (m : positive) (e : Z) :
  nonneg (binary_round prec emax false m e) = true.
Proof.
  unfold binary_round.
  destruct (shl_align m e _) as [mz ez].
  now apply binary_round_aux_nonneg.
Qed.

Lemma round_Z_nonneg (z : Z) : 0 <= z -> nonneg (round_Z z) = true.
Proof.
  intros H. unfold round_Z, binary_normalize.
  destruct z as [|p|p]; [reflexivity|apply binary_round_nonneg|lia].
Qed.

Lemma of_int_nonneg (z : Z) (x : float) :
  0 <= z -> of_int z = Ok x -> nonneg x = true.
Proof.
  intros H. unfold of_int.
  pose proof (round_Z_nonneg z H) as Hn.
  destruct (round_Z z); intros [= <-]; exact Hn.
Qed.

Lemma of_int_finite (z : Z) (x : float) :
  0 <= z -> of_int z = Ok x -> is_finite x = true.
Proof.
  intros H. unfold of_int.
  pose proof (round_Z_nonneg z H) as Hn.
  destruct (round_Z z); try discriminate; now intros [= <-].
Qed.

Lemma add_nonneg (x y : float) :
  nonneg x = true -> nonneg y = true -> nonneg (add x y) = true.
Proof.
  destruct x as [sx|sx| |sx mx ex], y as [sy|sy| |sy my ey];
    simpl; try discriminate;
    try destruct sx; try destruct sy; try discriminate; try reflexivity.
  intros _ _. apply binary_round_nonneg.
Qed.

Lemma div_nonneg (x : float) (m : positive) (e : Z) :
  is_finite x = true -> nonneg x = true ->
  nonneg (div x (S754_finite false m e)) = true.
Proof.
  destruct x as [sx|sx| |sx mx ex]; simpl; try discriminate;
    try reflexivity.
  destruct sx; [discriminate|]. intros _ _.
  unfold div, SFdiv, SFdiv_core_binary.
  set (m' := match _ - _ - _ with Z0 => _ | Zpos _ => _ | Zneg _ => _ end).
  assert (Hm' : 0 <= m').
  { subst m'. destruct (_ - _ - _); try lia.
    apply Z.shiftl_nonneg. lia. }
  pose proof (Z_div_mod m' (Zpos m) eq_refl) as Hdm.
  destruct (Z.div_eucl m' (Zpos m)) as [q r].
  apply binary_round_aux_nonneg. nia.
Qed.

End F64Facts.

(** ** Lemmas on [int] and digit strings *)

Lemma is_digit_range (a : ascii) :
  Py.is_digit a = true <-> (48 <= nat_of_ascii a <= 57)%nat.
Proof.
  unfold Py.is_digit. rewrite andb_true_iff, !Nat.leb_le. tauto.
Qed.


Lemma digit_val_range (a : ascii) :
  Py.is_digit a = true -> 0 <= Py.digit_val a <= 9.
Proof. rewrite is_digit_range. unfold Py.digit_val. lia. Qed.

Lemma digit_not_c_space (a : ascii) :
  Py.is_digit a = true -> Py.is_c_space a = false.
Proof.
  rewrite is_digit_range. intros H. unfold Py.is_c_space.
  apply orb_false_iff; split;
    [apply andb_false_iff; rewrite !Nat.leb_gt|rewrite Nat.eqb_neq]; lia.
Qed.

Lemma rstrip_c_digits (s : string) :
  all_digits s = true -> Py.rstrip_c s = s.
Proof.
  induction s as [|a r IH]; [reflexivity|].
  simpl. intros H. apply andb_prop in H as [Ha Hr].
  rewrite (IH Hr), (digit_not_c_space a Ha). now destruct r.
Qed.

Lemma strip_c_digits (s : string) : all_digits s = true -> Py.strip_c s = s.
Proof.
  intros H. unfold Py.strip_c.
  destruct s as [|a r]; [reflexivity|].
  pose proof H as H'. simpl in H'. apply andb_prop in H' as [Ha _].
  cbn [Py.lstrip_c]. rewrite (digit_not_c_space a Ha).
  now apply rstrip_c_digits.
Qed.

Lemma int_digits_decimal (s : string) (acc : Z) (after : bool) :
  all_digits s = true -> s <> "" ->
  Py.int_digits acc after s = Some (decimal acc s).
Proof.
  revert acc after; induction s as [|a r IH]; intros acc after H Hne;
    [congruence|].
  simpl in H. apply andb_prop in H as [Ha Hr].
  cbn [Py.int_digits decimal]. rewrite Ha.
  destruct r as [|b r']; [reflexivity|].
  now apply IH.
Qed.

Lemma decimal_nonneg (s : string) (acc : Z) :
  all_digits s = true -> 0 <= acc -> 0 <= decimal acc s.
Proof.
  revert acc; induction s as [|a r IH]; intros acc H Hacc; [exact Hacc|].
  simpl in H. apply andb_prop in H as [Ha Hr].
  cbn [decimal]. apply IH; [exact Hr|].
  pose proof (digit_val_range a Ha). lia.
Qed.

Lemma digits_spec (s : string) :
  digits s = true <-> s <> "" /\ all_digits s = true.
Proof.
  unfold digits. rewrite andb_true_iff, negb_true_iff, String.eqb_neq.
  tauto.
Qed.

(** [int] reads a digit string as its decimal value. *)
Lemma int_of_digits (s : string) :
  digits s = true -> Py.int s = Ok (decimal 0 s).
Proof.
  rewrite digits_spec. intros [Hne H].
  unfold Py.int. rewrite (strip_c_digits s H).
  destruct s as [|a r]; [congruence|].
  pose proof H as H'. simpl in H'. apply andb_prop in H' as [Ha _].
  pose proof (int_digits_decimal (String a r) 0 false H Hne) as Hd.
  destruct a as [[] [] [] [] [] [] [] []];
    try (vm_compute in Ha; discriminate Ha);
    cbv beta iota zeta; rewrite Hd; reflexivity.
Qed.

(** ** Lemmas on the pattern matcher *)

Lemma match_one (c : Re.cls) (p : list Re.item) (s : string)
    (g : list string) :
  Re.match_here (Re.One c :: p) s = Some g ->
  exists a r, s = String a r /\ Re.cls_match c a = true
              /\ Re.match_here p r = Some g.
Proof.
  simpl. destruct s as [|a r]; [discriminate|].
  destruct (Re.cls_match c a) eqn:Hc; [|discriminate].
  intros H. now exists a, r.
Qed.

Lemma match_group (c : Re.cls) (p : list Re.item) (s : string) :
  Re.match_here (Re.Group c :: p) s
  = Re.run_group (Re.match_here p) c "" s.
Proof. reflexivity. Qed.



Lemma match_lit_inv (w : string) (p : list Re.item) (s : string)
    (g : list string) :
  Re.match_here (Re.lit w ++ p) s = Some g ->
  exists r, s = w ++ r /\ Re.match_here p r = Some g.
Proof.
  revert s; induction w as [|a w IH]; intros s H.
  - now exists s.
  - change (Re.lit (String a w) ++ p)%list
      with (Re.One (Re.Chr a) :: (Re.lit w ++ p))%list in H.
    apply match_one in H as (x & r & -> & Hx & H).
    simpl in Hx. apply Ascii.eqb_eq in Hx. subst x.
    apply IH in H as (r' & -> & H). now exists r'.
Qed.


(** What a group of digits hands over: a non-empty run of digits, and
    the rest of the pattern matches what follows. *)
Lemma run_group_sound (k : string -> option (list string))
    (taken s : string) (g : list string) :
  Re.run_group k Re.Digit taken s = Some g ->
  exists d rest g',
    s = d ++ rest /\ digits d = true /\ k rest = Some g'
    /\ g = (taken ++ d) :: g'.
Proof.
  revert taken; induction s as [|a r IH]; intros taken; [discriminate|].
  cbn [Re.run_group Re.cls_match].
  destruct (Py.is_digit a) eqn:Ha; [|discriminate].
  destruct (Re.run_group k Re.Digit (taken ++ String a "") r) as [g1|] eqn:Hr.
  - intros [= <-].
    apply IH in Hr as (d & rest & g' & -> & Hd & Hk & ->).
    exists (String a d), rest, g'. repeat split; try assumption.
    + apply digits_spec in Hd as [_ Hd]. apply digits_spec.
      split; [discriminate|]. simpl. now rewrite Ha.
    + now rewrite append_assoc.
  - destruct (k r) as [g'|] eqn:Hk; [|discriminate].
    intros [= <-].
    exists (String a ""), r, g'. repeat split; try assumption.
    apply digits_spec. split; [discriminate|]. simpl. now rewrite Ha.
Qed.


(** A match of [time_pattern] captures four digit strings. *)
Lemma match_time_groups (s : string) (g : list string) :
  Re.match_here time_pattern s = Some g ->
  exists h m sec ms,
    g = [h; m; sec; ms] /\ digits h = true /\ digits m = true
    /\ digits sec = true /\ digits ms = true.
Proof.
  unfold time_pattern. intros H.
  apply match_lit_inv in H as (r0 & -> & H).
  rewrite match_group in H.
  apply run_group_sound in H as (h & r1 & g1 & -> & Hh & H & ->).
  apply match_one in H as (x1 & r2 & -> & _ & H).
  rewrite match_group in H.
  apply run_group_sound in H as (m & r3 & g2 & -> & Hm & H & ->).
  apply match_one in H as (x2 & r4 & -> & _ & H).
  rewrite match_group in H.
  apply run_group_sound in H as (sec & r5 & g3 & -> & Hs & H & ->).
  apply match_one in H as (x3 & r6 & -> & _ & H).
  rewrite match_group in H.
  apply run_group_sound in H as (ms & r7 & g4 & -> & Hms & H & ->).
  injection H as <-.
  now exists h, m, sec, ms.
Qed.

Lemma search_sound (p : list Re.item) (s : string) (g : list string) :
  Re.search p s = Some g ->
  exists pre t, s = pre ++ t /\ Re.match_here p t = Some g.
Proof.
  induction s as [|a r IH]; simpl.
  - destruct (Re.match_here p "") eqn:Hm; [|discriminate].
    intros [= <-]. now exists "", "".
  - destruct (Re.match_here p (String a r)) eqn:Hm.
    + intros [= <-]. now exists "", (String a r).
    + intros H. apply IH in H as (pre & t & -> & H).
      now exists (String a pre), t.
Qed.




(** The matcher on a few lines: a plain marker, a separator that is not a
    dot, a seconds field that gives back two digits, and a line in which
    nothing follows the seconds. *)
Example search_marker :
  Re.search time_pattern "frame= 10 time=00:01:10.07 bitrate=1k"
  = Some ["00"; "01"; "10"; "07"].
Proof. reflexivity. Qed.

Example search_any_separator :
  Re.search time_pattern "time=00:00:05x50" = Some ["00"; "00"; "05"; "50"].
Proof. reflexivity. Qed.

Example search_backtracks :
  Re.search time_pattern "time=00:00:0512" = Some ["00"; "00"; "05"; "2"].
Proof. reflexivity. Qed.

Example search_no_fraction :
  Re.search time_pattern "time=00:00:05" = None.
Proof. reflexivity. Qed.

(** ** Small integers convert without overflow *)

Module F64Small.
Import F64.

Lemma digits2_pos_le (p : positive) (n : Z) :
  0 <= n -> Zpos p < 2 ^ n -> Zpos (digits2_pos p) <= n.
Proof.
  revert n; induction p as [q IH|q IH|]; intros n Hn H; simpl.
  - assert (Hn1 : 1 <= n).
    { destruct (Z.eq_dec n 0) as [->|]; [simpl in H; lia|lia]. }
    replace n with (Z.succ (n - 1)) in H by lia.
    rewrite Z.pow_succ_r in H by lia.
    specialize (IH (n - 1) ltac:(lia) ltac:(lia)). lia.
  - assert (Hn1 : 1 <= n).
    { destruct (Z.eq_dec n 0) as [->|]; [simpl in H; lia|lia]. }
    replace n with (Z.succ (n - 1)) in H by lia.
    rewrite Z.pow_succ_r in H by lia.
    specialize (IH (n - 1) ltac:(lia) ltac:(lia)). lia.
  - destruct (Z.eq_dec n 0) as [->|]; [simpl in H; lia|lia].
Qed.

Lemma digits2_pos_iter (p k : positive) :
  digits2_pos (Pos.iter xO p k) = (digits2_pos p + k)%positive.
Proof.
  induction k as [|k IH] using Pos.peano_ind.
  - simpl. lia.
  - rewrite Pos.iter_succ. simpl. rewrite IH. lia.
Qed.

(** A mantissa that already has the exponent of its format is not
    rounded. *)
Lemma binary_round_aux_canonical (s : bool) (m : positive) (e : Z) :
  fexp prec emax (Zpos (digits2_pos m) + e) = e -> e <= emax - prec ->
  binary_round_aux prec emax s (Zpos m) e loc_Exact = S754_finite s m e.
Proof.
  intros Hc He.
  unfold binary_round_aux, shr_fexp. cbn [Zdigits2 shr_record_of_loc].
  rewrite Hc, Z.sub_diag. cbn [shr shr_m loc_of_shr_record round_nearest_even].
  cbn [Zdigits2 shr_record_of_loc].
  rewrite Hc, Z.sub_diag. cbn [shr shr_m].
  apply Z.leb_le in He. now rewrite He.
Qed.



End F64Small.

(** ** The seconds of a timestamp *)

Lemma to_seconds_spec (h m s ms : Z) (x : F64.float) :
  to_seconds h m s ms = Ok x -> x = spec_seconds h m s ms.
Proof.
  unfold to_seconds, spec_seconds, F64.of_int.
  destruct (F64.round_Z ms); simpl; try discriminate;
    destruct (F64.round_Z (h * 3600 + m * 60 + s)); simpl;
    try discriminate; now intros [= <-].
Qed.


Lemma to_seconds_nonneg (h m s ms : Z) (x : F64.float) :
  0 <= h -> 0 <= m -> 0 <= s -> 0 <= ms ->
  to_seconds h m s ms = Ok x -> F64.nonneg x = true.
Proof.
  intros Hh Hm Hs Hms. unfold to_seconds.
  destruct (F64.of_int ms) as [fms|] eqn:Hfms; [|discriminate].
  destruct (F64.of_int (h * 3600 + m * 60 + s)) as [whole|] eqn:Hw;
    [|discriminate].
  simpl. intros [= <-].
  apply F64Facts.add_nonneg.
  - apply (F64Facts.of_int_nonneg (h * 3600 + m * 60 + s)); [lia|exact Hw].
  - change (F64.round_Z 100) with (S754_finite false 7036874417766400 (-46)).
    apply F64Facts.div_nonneg.
    + now apply (F64Facts.of_int_finite ms).
    + now apply (F64Facts.of_int_nonneg ms).
Qed.

Lemma seconds_of_groups_nonneg (h m s ms : string) (x : F64.float) :
  digits h = true -> digits m = true -> digits s = true ->
  digits ms = true ->
  seconds_of_groups [h; m; s; ms] = Ok x -> F64.nonneg x = true.
Proof.
  intros Hh Hm Hs Hms. unfold seconds_of_groups.
  rewrite !int_of_digits by assumption. simpl.
  apply digits_spec in Hh as [_ Hh], Hm as [_ Hm], Hs as [_ Hs],
    Hms as [_ Hms].
  apply to_seconds_nonneg; apply decimal_nonneg; (assumption || lia).
Qed.

(** Every timestamp the reader extracts is zero or above. *)
Lemma parse_time_nonneg (line : string) (x : F64.float) :
  parse_time line = Ok (Some x) -> F64.nonneg x = true.
Proof.
  unfold parse_time.
  destruct (Re.search time_pattern line) as [g|] eqn:Hs; [|discriminate].
  apply search_sound in Hs as (pre & t & _ & Hm).
  apply match_time_groups in Hm as (h & m & s & ms & -> & Hh & Hm & Hs & Hms).
  destruct (seconds_of_groups [h; m; s; ms]) as [y|] eqn:Hy; [|discriminate].
  simpl. intros [= <-].
  now apply (seconds_of_groups_nonneg h m s ms).
Qed.

Lemma stamps_nonneg (lines : list string) :
  Forall (fun x => F64.nonneg x = true) (stamps lines).
Proof.
  induction lines as [|line rest IH]; simpl; [constructor|].
  destruct (Py.contains "time=" line); [|exact IH].
  destruct (parse_time line) as [[x|]|] eqn:Hp; try assumption;
    constructor; [|exact IH].
  now apply (parse_time_nonneg line).
Qed.

(** ** Clamping *)

Lemma min_in_range (x total : F64.float) :
  F64.leb F64.zero total = true -> F64.nonneg x = true ->
  F64.leb F64.zero (F64.min x total) = true
  /\ F64.leb (F64.min x total) total = true.
Proof.
  intros Ht Hx. unfold F64.min.
  destruct (F64Facts.leb_not_nan _ _ Ht) as [_ Hnt].
  destruct (F64.ltb total x) eqn:Hlt.
  - split; [exact Ht|now apply F64Facts.leb_refl].
  - split; [now apply F64Facts.nonneg_leb_zero|].
    apply F64Facts.not_ltb_leb; auto using F64Facts.nonneg_not_nan.
Qed.

Lemma min_mono (a b total : F64.float) :
  F64.leb a b = true ->
  F64.leb (F64.min a total) (F64.min b total) = true.
Proof.
  intros Hab. unfold F64.min.
  destruct (F64Facts.leb_not_nan _ _ Hab) as [Ha Hb].
  destruct (F64.ltb total a) eqn:Hta.
  - rewrite (F64Facts.ltb_leb_trans total a b Hta Hab).
    apply F64Facts.leb_refl.
    now destruct (F64Facts.ltb_not_nan _ _ Hta).
  - destruct (F64.ltb total b) eqn:Htb; [|exact Hab].
    apply F64Facts.not_ltb_leb; [|exact Ha|exact Hta].
    now destruct (F64Facts.ltb_not_nan _ _ Htb).
Qed.

Lemma nondecreasing_map_min (total : F64.float) (l : list F64.float) :
  nondecreasing l = true ->
  nondecreasing (map (fun x => F64.min x total) l) = true.
Proof.
  induction l as [|a [|b r] IH]; try reflexivity.
  cbn [nondecreasing map]. intros H. apply andb_prop in H as [Hab Hr].
  apply andb_true_intro; split; [now apply min_mono|now apply IH].
Qed.

(** ** The reader loop and the runner *)

Lemma skipn_app_length {A : Type} (l1 l2 : list A) :
  skipn (List.length l1) (l1 ++ l2)%list = l2.
Proof. induction l1; simpl; auto. Qed.

Lemma published_app (l1 l2 : list event) :
  published (l1 ++ l2)%list = (published l1 ++ published l2)%list.
Proof.
  induction l1 as [|e l1 IH]; [reflexivity|].
  destruct e; simpl; now rewrite IH.
Qed.

Lemma published_refreshes (f : F64.float -> F64.float) (l : list F64.float) :
  published (map (fun x => Refresh (f x)) l) = map f l.
Proof. induction l; simpl; congruence. Qed.

Lemma launches_app (l1 l2 : list event) :
  launches (l1 ++ l2)%list = (launches l1 ++ launches l2)%list.
Proof.
  induction l1 as [|e l1 IH]; [reflexivity|].
  destruct e; simpl; now rewrite IH.
Qed.

Lemma launches_refreshes (f : F64.float -> F64.float) (l : list F64.float) :
  launches (map (fun x => Refresh (f x)) l) = [].
Proof. induction l; simpl; congruence. Qed.

Lemma int_no_exit (s : string) : no_exit (Py.int s).
Proof.
  unfold Py.int.
  destruct (Py.strip_c s) as [|a d]; cbv zeta.
  - now destruct (Py.int_digits 0 false "").
  - destruct a as [[] [] [] [] [] [] [] []];
      match goal with
      | |- context [Py.int_digits ?a ?b ?c] =>
          now destruct (Py.int_digits a b c)
      end.
Qed.

Lemma rbind_no_exit {A B : Type} (r : result A) (k : A -> result B) :
  no_exit r -> (forall a, no_exit (k a)) -> no_exit (rbind r k).
Proof. destruct r as [a|e]; simpl; auto. Qed.

Lemma of_int_no_exit (z : Z) : no_exit (F64.of_int z).
Proof. unfold F64.of_int. now destruct (F64.round_Z z). Qed.

Lemma to_seconds_no_exit (h m s ms : Z) : no_exit (to_seconds h m s ms).
Proof.
  unfold to_seconds.
  repeat (apply rbind_no_exit; [apply of_int_no_exit|intros ?]).
  exact I.
Qed.

Lemma parse_time_no_exit (line : string) : no_exit (parse_time line).
Proof.
  unfold parse_time.
  destruct (Re.search time_pattern line) as [g|]; [|exact I].
  apply rbind_no_exit; [|intros; exact I].
  unfold seconds_of_groups.
  destruct g as [|h [|m [|s [|ms [|x g]]]]]; try exact I.
  repeat (apply rbind_no_exit; [apply int_no_exit|intros ?]).
  apply to_seconds_no_exit.
Qed.

(** The loop over the stream leaves the file system alone and appends
    the refreshes of [shown]; it ends normally when every line converts. *)
Lemma for_each_on_line (E : Env) (total_duration : option F64.float)
    (lines : list string) (st : state) :
  exists r,
    for_each (on_line E total_duration) lines st
    = (r, mkState (fs st) (log st ++ shown E total_duration lines))
    /\ (stream_ok lines = true -> r = Ok tt)
    /\ no_exit r.
Proof.
  revert st; induction lines as [|line rest IH]; intros st.
  - exists (Ok tt). split; [|split; [reflexivity|exact I]].
    unfold shown. destruct st as [f l]; simpl.
    destruct total_duration as [total|]; [|now rewrite app_nil_r].
    destruct (tracking _ _); now rewrite app_nil_r.
  - cbn [for_each]. unfold bind at 1.
    set (k := for_each (on_line E total_duration) rest) in *.
    destruct total_duration as [total|].
    + unfold on_line, shown, tracking.
      rewrite <- andb_assoc.
      destruct (F64.truthy total && pbar_truthy E total) eqn:Hact.
      * rewrite andb_true_r. cbn [stamps stream_ok forallb].
        destruct (Py.contains "time=" line).
        -- unfold bind, lift.
           destruct (parse_time line) as [[x|]|e] eqn:Hp.
           ++ unfold emit.
              destruct (IH (mkState (fs st)
                              (log st ++ [Refresh (F64.min x total)])))
                as (r & Hr & Hok & Hne).
              exists r. rewrite Hr. unfold shown, tracking. rewrite Hact.
              cbn [fs log map]. rewrite <- app_assoc. repeat split; auto.
           ++ unfold ret.
              destruct (IH st) as (r & Hr & Hok & Hne).
              exists r. rewrite Hr. unfold shown, tracking. rewrite Hact.
              repeat split; auto.
           ++ exists (Raise e). rewrite app_nil_r. destruct st.
              split; [reflexivity|split; [discriminate|]].
              pose proof (parse_time_no_exit line) as Hn.
              now rewrite Hp in Hn.
        -- unfold ret.
           destruct (IH st) as (r & Hr & Hok & Hne).
           exists r. rewrite Hr. unfold shown, tracking. rewrite Hact.
           split; [reflexivity|split; [|exact Hne]].
           intros H. apply andb_prop in H as [_ H]. auto.
      * rewrite andb_false_r. unfold ret.
        destruct (IH st) as (r & Hr & Hok & Hne).
        exists r. rewrite Hr. unfold shown, tracking. rewrite Hact.
        split; [reflexivity|split; [|exact Hne]].
        cbn [stream_ok forallb].
        intros H. apply andb_prop in H as [_ H]. auto.
    + unfold on_line, ret.
      destruct (IH st) as (r & Hr & Hok & Hne).
      exists r. rewrite Hr. split; [reflexivity|split; [|exact Hne]].
      cbn [stream_ok forallb].
      intros H. apply andb_prop in H as [_ H]. auto.
Qed.

(** One run of the runner: the printed command, the launch, the
    refreshes of the stream and a tail without refresh or launch; the
    outcome follows the return code when every line converts. *)
Lemma run_ffmpeg_spec (E : Env) (cmd : list string)
    (total_duration : option F64.float) (desc : string) (st : state) :
  exists r tail,
    run_ffmpeg_with_progress E cmd total_duration desc st
    = (r, mkState (snd (ffmpeg E (fs st) cmd))
            (log st
             ++ [Print ("▶ Running: " ++ Py.join " " cmd);
                 Launch cmd total_duration desc]
             ++ shown E total_duration (stream_of E st cmd) ++ tail))
    /\ published tail = [] /\ launches tail = []
    /\ (stream_ok (stream_of E st cmd) = true ->
        r = if returncode_of E st cmd =? 0 then Ok tt
            else Raise (CalledProcessError (returncode_of E st cmd) cmd))
    /\ no_exit r.
Proof.
  unfold run_ffmpeg_with_progress, stream_of, returncode_of.
  unfold bind at 1. unfold emit at 1. cbn [fs log].
  unfold bind at 1. unfold get_fs at 1. cbn [fs log].
  destruct (ffmpeg E (fs st) cmd) as [[lines rc] f'] eqn:Hff.
  unfold bind at 1. unfold emit at 1. cbn [fs log].
  unfold bind at 1. unfold put_fs at 1. cbn [fs log fst snd].
  unfold bind at 1.
  match goal with
  | |- context [for_each _ _ ?s] =>
      destruct (for_each_on_line E total_duration lines s)
        as (r & Hr & Hok & Hne)
  end.
  rewrite Hr. cbn [fs log].
  destruct r as [[]|e].
  - assert (Hfin : forall (tail : list event) (s : state),
               s = mkState f'
                     (((log st ++ [Print ("▶ Running: " ++ Py.join " " cmd)])
                       ++ [Launch cmd total_duration desc])
                      ++ shown E total_duration lines ++ tail) ->
               published tail = [] -> launches tail = [] ->
               exists r tail',
                 (if negb (rc =? 0)
                  then raise (CalledProcessError rc cmd) else ret tt) s
                 = (r, mkState f'
                         (log st
                          ++ [Print ("▶ Running: " ++ Py.join " " cmd);
                              Launch cmd total_duration desc]
                          ++ shown E total_duration lines ++ tail'))
                 /\ published tail' = [] /\ launches tail' = []
                 /\ (stream_ok lines = true ->
                     r = if rc =? 0 then Ok tt
                         else Raise (CalledProcessError rc cmd))
                 /\ no_exit r).
    { intros tail s -> Hp Hl.
      exists (if rc =? 0 then Ok tt else Raise (CalledProcessError rc cmd)),
        tail.
      repeat split; try assumption.
      - destruct (rc =? 0); unfold raise, ret; cbn [negb];
          rewrite <- !app_assoc; reflexivity.
      - now destruct (rc =? 0). }
    unfold bind at 1.
    destruct total_duration as [total|].
    + destruct (F64.truthy total && pbar_truthy E total) eqn:Hact.
      * unfold emit. cbn [fs log].
        apply (Hfin [Close total]); [|reflexivity|reflexivity].
        now rewrite <- !app_assoc.
      * unfold ret at 1.
        apply (Hfin []); [|reflexivity|reflexivity].
        now rewrite !app_nil_r.
    + unfold ret at 1.
      apply (Hfin []); [|reflexivity|reflexivity].
      now rewrite !app_nil_r.
  - exists (Raise e), [].
    split; [|split; [reflexivity|split; [reflexivity|]]].
    + rewrite <- !app_assoc, app_nil_r. reflexivity.
    + split; [|exact Hne]. intros H. now apply Hok in H.
Qed.

Lemma events_of_run (E : Env) (cmd : list string)
    (total_duration : option F64.float) (desc : string) (st : state) :
  published (events_of (run_ffmpeg_with_progress E cmd total_duration desc) st)
  = published (shown E total_duration (stream_of E st cmd)).
Proof.
  destruct (run_ffmpeg_spec E cmd total_duration desc st)
    as (r & tail & Hrun & Hp & _).
  unfold events_of. rewrite Hrun. cbn [snd log].
  rewrite skipn_app_length, !published_app, Hp, app_nil_r.
  reflexivity.
Qed.

Lemma published_shown (E : Env) (total : F64.float) (lines : list string) :
  published (shown E (Some total) lines)
  = if tracking E (Some total)
    then map (fun x => F64.min x total) (stamps lines) else [].
Proof.
  unfold shown. destruct (tracking E (Some total)); [|reflexivity].
  apply published_refreshes.
Qed.

(** C6.  Whatever the lines of the diagnostic stream, every value the
    progress bar shows while the stream is read lies between 0 and the
    total duration (a total that is itself zero or above). *)
Theorem progress_clamped (E : Env) (cmd : list string) (total : F64.float)
    (desc : string) (st : state) (c : F64.float) :
  F64.leb F64.zero total = true ->
  In c (published
          (events_of (run_ffmpeg_with_progress E cmd (Some total) desc) st)) ->
  F64.leb F64.zero c = true /\ F64.leb c total = true.
Proof.
  intros Ht Hin.
  rewrite events_of_run, published_shown in Hin.
  destruct (tracking E (Some total)); [|contradiction].
  apply in_map_iff in Hin as (x & <- & Hx).
  apply min_in_range; [exact Ht|].
  pose proof (stamps_nonneg (stream_of E st cmd)) as Hall.
  rewrite Forall_forall in Hall. now apply Hall.
Qed.

Lemma progress_clamped_witness :
  F64.leb F64.zero (F64.round_Z 20) = true
  /\ F64.leb (F64.round_Z 20) (F64.round_Z 20) = true.
Proof.
  apply (progress_clamped (Fixture.env Fixture.overshoot_lines Fixture.never)
           ["ffmpeg"; "-y"; "-i"; "in.mp4"; "out.mp4"]
           (F64.round_Z 20) "Normalizing" (Fixture.start Fixture.demo_fs)
           (F64.round_Z 20)).
  - reflexivity.
  - vm_compute. left. reflexivity.
Defined.

(** C3, at a concrete input: two timestamps out of order are published
    as they come, 10.0 and then 5.0. *)
Lemma progress_not_monotone :
  let shown_values :=
    published
      (events_of
         (run_ffmpeg_with_progress
            (Fixture.env Fixture.out_of_order_lines Fixture.never)
            ["ffmpeg"; "-y"; "-i"; "in.mp4"; "out.mp4"]
            (Some (F64.round_Z 20)) "Rendering")
         (Fixture.start Fixture.demo_fs)) in
  shown_values = [F64.round_Z 10; F64.round_Z 5]
  /\ F64.ltb (F64.round_Z 5) (F64.round_Z 10) = true
  /\ nondecreasing shown_values = false.
Proof. vm_compute. repeat split. Qed.

(** C3, amended.  The runner keeps no maximum.  While the stream is
    read, the values shown are the timestamps of the lines, in the order
    of the lines, each replaced by [min(seconds, total)]; nothing is shown
    when the bar is not active.  So the values shown are non-decreasing
    whenever the timestamps of the stream are.  (For a finite total and
    lines of at most 4300 characters.) *)
Theorem progress_monotone_when_ordered (E : Env) (cmd : list string)
    (total : F64.float) (desc : string) (st : state) :
  finite_total (Some total) = true ->
  short_lines (stream_of E st cmd) = true ->
  published
    (events_of (run_ffmpeg_with_progress E cmd (Some total) desc) st)
  = (if tracking E (Some total)
     then map (fun seconds => F64.min seconds total)
            (stamps (stream_of E st cmd))
     else [])
  /\ (nondecreasing (stamps (stream_of E st cmd)) = true ->
      nondecreasing
        (published
           (events_of (run_ffmpeg_with_progress E cmd (Some total) desc) st))
      = true).
Proof.
  intros _ _. rewrite events_of_run, published_shown.
  split; [reflexivity|].
  intros H. destruct (tracking E (Some total)); [|reflexivity].
  now apply nondecreasing_map_min.
Qed.

Lemma progress_monotone_when_ordered_witness :
  let E := Fixture.env Fixture.progress_lines Fixture.never in
  let cmd := ["ffmpeg"; "-y"; "-i"; "in.mp4"; "out.mp4"] in
  let st := Fixture.start Fixture.demo_fs in
  published
    (events_of
       (run_ffmpeg_with_progress E cmd (Some (F64.round_Z 20)) "Rendering") st)
  = [F64.round_Z 4; F64.round_Z 10]
  /\ nondecreasing
       (published
          (events_of
             (run_ffmpeg_with_progress E cmd (Some (F64.round_Z 20))
                "Rendering") st))
     = true.
Proof.
  intros E cmd st.
  destruct (progress_monotone_when_ordered E cmd (F64.round_Z 20)
              "Rendering" st) as [Heq Hmono];
    [reflexivity|reflexivity|].
  split; [rewrite Heq; vm_compute; reflexivity|].
  apply Hmono. vm_compute. reflexivity.
Defined.

(** ** The time-parsing step *)



Lemma prefix_self_app (w r : string) : prefix w (w ++ r) = true.
Proof.
  induction w as [|a w IH]; [now destruct r|].
  cbn [append prefix]. destruct (ascii_dec a a); [exact IH|congruence].
Qed.

Lemma contains_app_r (w a b : string) :
  Py.contains w b = true -> Py.contains w (a ++ b) = true.
Proof.
  intros H. induction a as [|x r IH]; [exact H|].
  change (String x r ++ b) with (String x (r ++ b)).
  cbn [Py.contains]. rewrite IH. now destruct (prefix w _).
Qed.

Lemma contains_self_app (w r : string) : Py.contains w (w ++ r) = true.
Proof.
  destruct (w ++ r) as [|x t] eqn:Heq; cbn [Py.contains];
    rewrite <- Heq, prefix_self_app; reflexivity.
Qed.










(** ** The frame rate *)

Lemma int_truediv_no_zero_division (num den : Z) :
  den <> 0 -> F64.int_truediv num den <> Raise ZeroDivisionError.
Proof.
  intros Hden. unfold F64.int_truediv.
  apply Z.eqb_neq in Hden. rewrite Hden.
  destruct (F64.div _ _); discriminate.
Qed.

Example truediv_whole : F64.int_truediv 30 1 = Ok (F64.round_Z 30).
Proof. reflexivity. Qed.

Example truediv_negative_zero : F64.int_truediv 0 (-5) = Ok (S754_zero true).
Proof. reflexivity. Qed.

Lemma digits_no_slash (s : string) :
  all_digits s = true -> Py.contains "/" s = false.
Proof.
  induction s as [|a r IH]; [reflexivity|].
  simpl all_digits. intros H. apply andb_prop in H as [Ha Hr].
  rewrite contains_char_cons, (IH Hr), orb_false_r.
  apply Ascii.eqb_neq. intros ->. discriminate Ha.
Qed.

(** *** The true division of two integers is exact on multiples *)

Module F64Div.
Import F64.

Lemma digits2_pos_bounds (p : positive) :
  2 ^ (Zpos (digits2_pos p) - 1) <= Zpos p < 2 ^ Zpos (digits2_pos p).
Proof.
  induction p as [q IH|q IH|]; cbn [digits2_pos].
  - rewrite Pos2Z.inj_succ.
    replace (Z.succ (Zpos (digits2_pos q)) - 1) with (Z.succ (Zpos (digits2_pos q) - 1)) by lia.
    rewrite !Z.pow_succ_r by lia. lia.
  - rewrite Pos2Z.inj_succ.
    replace (Z.succ (Zpos (digits2_pos q)) - 1) with (Z.succ (Zpos (digits2_pos q) - 1)) by lia.
    rewrite !Z.pow_succ_r by lia. lia.
  - simpl. lia.
Qed.

Lemma digits2_pos_mul (a b : positive) :
  Zpos (digits2_pos a) + Zpos (digits2_pos b) - 1
  <= Zpos (digits2_pos (a * b))
  <= Zpos (digits2_pos a) + Zpos (digits2_pos b).
Proof.
  pose proof (digits2_pos_bounds a) as [Ha1 Ha2].
  pose proof (digits2_pos_bounds b) as [Hb1 Hb2].
  pose proof (digits2_pos_bounds (a * b)) as [Hc1 Hc2].
  rewrite Pos2Z.inj_mul in Hc1, Hc2.
  set (da := Zpos (digits2_pos a)) in *.
  set (db := Zpos (digits2_pos b)) in *.
  set (dc := Zpos (digits2_pos (a * b))) in *.
  assert (0 < da) by (unfold da; lia).
  assert (0 < db) by (unfold db; lia).
  assert (0 < dc) by (unfold dc; lia).
  assert (Hlo : 2 ^ (da + db - 2) <= Zpos a * Zpos b).
  { replace (da + db - 2) with ((da - 1) + (db - 1)) by lia.
    rewrite Z.pow_add_r by lia. nia. }
  assert (Hhi : Zpos a * Zpos b < 2 ^ (da + db)).
  { rewrite Z.pow_add_r by lia. nia. }
  split.
  - assert (2 ^ (da + db - 2) < 2 ^ dc) by lia.
    apply Z.pow_lt_mono_r_iff in H2; lia.
  - assert (2 ^ (dc - 1) < 2 ^ (da + db)) by lia.
    apply Z.pow_lt_mono_r_iff in H2; lia.
Qed.

Lemma shiftl_pos (p n : positive) :
  Z.shiftl (Zpos p) (Zpos n) = Zpos (Pos.iter xO p n).
Proof.
  cbn [Z.shiftl]. 
  revert p. induction n as [n IH|n IH|]; intros p; cbn [Pos.iter].
  - rewrite !IH. reflexivity.
  - rewrite !IH. reflexivity.
  - reflexivity.
Qed.


Lemma binary_round_small (sgn : bool) (pk : positive) :
  Zpos pk < 2 ^ 53 ->
  binary_round prec emax sgn pk 0
  = S754_finite sgn (fst (shl_align pk 0 (Zpos (digits2_pos pk) - 53)))
      (snd (shl_align pk 0 (Zpos (digits2_pos pk) - 53))).
Proof.
  intros H.
  pose proof (F64Small.digits2_pos_le pk 53 ltac:(lia) H) as Hd.
  unfold binary_round.
  assert (Hf : fexp prec emax (Zpos (digits2_pos pk) + 0)
               = Zpos (digits2_pos pk) - 53).
  { unfold fexp, emin, prec, emax. lia. }
  rewrite Hf. unfold shl_align.
  destruct (Zpos (digits2_pos pk) - 53 - 0) as [|k|k] eqn:Hk; [|lia|];
    cbn [fst snd].
  - rewrite F64Small.binary_round_aux_canonical;
      [reflexivity| |unfold emax, prec; lia].
    unfold fexp, emin, prec, emax. lia.
  - rewrite F64Small.binary_round_aux_canonical;
      [reflexivity| |unfold emax, prec; lia].
    rewrite F64Small.digits2_pos_iter. unfold fexp, emin, prec, emax. lia.
Qed.

(** Dropping one zero bit of an exact mantissa is exact. *)
Lemma binary_round_aux_even (sgn : bool) (m : positive) (e : Z) :
  fexp prec emax (Zpos (digits2_pos m) + (e + 1)) = e + 1 ->
  e + 1 <= emax - prec ->
  binary_round_aux prec emax sgn (Zpos (xO m)) e loc_Exact
  = S754_finite sgn m (e + 1).
Proof.
  intros Hc He.
  unfold binary_round_aux, shr_fexp. cbn [Zdigits2 shr_record_of_loc digits2_pos].
  rewrite Pos2Z.inj_succ.
  replace (Z.succ (Zpos (digits2_pos m)) + e)
    with (Zpos (digits2_pos m) + (e + 1)) by lia.
  rewrite Hc. replace (e + 1 - e) with 1 by lia.
  cbn [shr iter_pos shr_1 orb shr_m loc_of_shr_record round_nearest_even].
  cbn [Zdigits2 shr_record_of_loc].
  rewrite Hc, Z.sub_diag. cbn [shr shr_m].
  apply Z.leb_le in He. now rewrite He.
Qed.

Lemma div_exact (sgn : bool) (pk pd : positive) :
  Zpos pk < 2 ^ 53 ->
  (let '(mz, ez, lz) :=
     SFdiv_core_binary prec emax (Zpos (pk * pd)) 0 (Zpos pd) 0 in
   binary_round_aux prec emax sgn mz ez lz)
  = binary_round prec emax sgn pk 0.
Proof.
  intros H.
  rewrite (binary_round_small sgn pk H).
  pose proof (F64Small.digits2_pos_le pk 53 ltac:(lia) H) as Hd.
  pose proof (digits2_pos_mul pk pd) as Hmul.
  unfold SFdiv_core_binary. cbn [Zdigits2].
  set (dk := Zpos (digits2_pos pk)) in *.
  set (d1 := Zpos (digits2_pos (pk * pd))) in *.
  set (d2 := Zpos (digits2_pos pd)) in *.
  assert (Hdk : 0 < dk) by (unfold dk; lia).
  assert (He' : Z.min (fexp prec emax (d1 + 0 - (d2 + 0))) (0 - 0)
                = d1 - d2 - 53).
  { unfold fexp, emin, prec, emax. lia. }
  change IntDef.Z.min with Z.min. rewrite He'.
  replace (0 - 0 - (d1 - d2 - 53)) with (53 - (d1 - d2)) by lia.
  assert (Hdiv : forall j, 0 <= j ->
            Z.div_eucl (Zpos (pk * pd) * 2 ^ j) (Zpos pd)
            = (Zpos pk * 2 ^ j, 0)).
  { intros j Hj.
    pose proof (Z.div_eucl_eq (Zpos (pk * pd) * 2 ^ j) (Zpos pd)
                  ltac:(lia)) as Heq.
    pose proof (Z.mod_pos_bound (Zpos (pk * pd) * 2 ^ j) (Zpos pd)
                  ltac:(lia)) as Hb.
    unfold Z.modulo in Hb.
    destruct (Z.div_eucl (Zpos (pk * pd) * 2 ^ j) (Zpos pd)) as [q r].
    rewrite Pos2Z.inj_mul in Heq.
    assert (Hq : q = Zpos pk * 2 ^ j) by nia.
    subst q. f_equal. nia. }
  assert (Hloc : new_location (Zpos pd) 0 = loc_Exact).
  { unfold new_location, new_location_even, new_location_odd.
    now destruct (IntDef.Z.even (Zpos pd)). }
  destruct (53 - (d1 - d2)) as [|sp|sp] eqn:Hs; [| |lia].
  - (* no shift *)
    specialize (Hdiv 0 ltac:(lia)). rewrite Z.pow_0_r, !Z.mul_1_r in Hdiv.
    change IntDef.Z.div_eucl with Z.div_eucl. rewrite Hdiv, Hloc.
    assert (dk = 53) by lia.
    unfold shl_align. replace (dk - 53 - 0) with 0 by lia. cbn [fst snd].
    replace (d1 - d2 - 53) with 0 by lia.
    apply F64Small.binary_round_aux_canonical;
      [|unfold emax, prec; lia].
    fold dk. unfold fexp, emin, prec, emax. lia.
  - change IntDef.Z.shiftl with Z.shiftl.
    rewrite Z.shiftl_mul_pow2 by lia.
    change IntDef.Z.div_eucl with Z.div_eucl.
    rewrite (Hdiv (Zpos sp) ltac:(lia)), Hloc.
    rewrite <- Z.shiftl_mul_pow2 by lia. rewrite shiftl_pos.
    assert (Hcase : d1 - d2 = dk \/ d1 - d2 = dk - 1) by lia.
    destruct Hcase as [Hx|Hx].
    + (* the quotient has the digits of the format *)
      unfold shl_align.
      replace (dk - 53 - 0) with (Zneg sp) by lia. cbn [fst snd].
      replace (d1 - d2 - 53) with (dk - 53) by lia.
      apply F64Small.binary_round_aux_canonical;
        [|unfold emax, prec; lia].
      rewrite F64Small.digits2_pos_iter. fold dk.
      unfold fexp, emin, prec, emax. lia.
    + (* one digit more: the last bit is zero *)
      replace (d1 - d2 - 53) with (dk - 54) by lia.
      destruct (Pos.eq_dec sp 1) as [->|Hsp].
      * assert (dk = 53) by lia.
        unfold shl_align. replace (dk - 53 - 0) with 0 by lia.
        cbn [fst snd Pos.iter].
        rewrite binary_round_aux_even;
          [f_equal; lia| |unfold emax, prec; lia].
        fold dk. unfold fexp, emin, prec, emax. lia.
      * assert (Hsp' : sp = Pos.succ (Pos.pred sp))
          by (rewrite Pos.succ_pred; [reflexivity|exact Hsp]).
        rewrite Hsp' at 1. rewrite Pos.iter_succ.
        unfold shl_align.
        replace (dk - 53 - 0) with (Zneg (Pos.pred sp)) by lia.
        cbn [fst snd].
        rewrite binary_round_aux_even;
          [f_equal; lia| |unfold emax, prec; lia].
        rewrite F64Small.digits2_pos_iter. fold dk.
        unfold fexp, emin, prec, emax. lia.
Qed.


(** [num / den] is exact when [den] divides [num] and the quotient is
    below 2^53 in magnitude. *)
Lemma int_truediv_exact (k den : Z) :
  den <> 0 -> k <> 0 -> Z.abs k < 2 ^ 53 ->
  int_truediv (k * den) den = Ok (round_Z k).
Proof.
  intros Hden Hk Hsmall.
  assert (Hpos : forall (sk sd : bool) (pk pd : positive),
            Zpos pk < 2 ^ 53 ->
            match div (S754_finite (xorb sk sd) (pk * pd) 0)
                      (S754_finite sd pd 0) with
            | S754_infinity _ => Raise OverflowError
            | q => Ok q
            end = Ok (binary_round prec emax sk pk 0)).
  { intros sk sd pk pd H. unfold div. cbn [SFdiv].
    replace (xorb (xorb sk sd) sd) with sk by (now destruct sk, sd).
    rewrite (div_exact sk pk pd H).
    now rewrite (binary_round_small sk pk H). }
  unfold int_truediv.
  destruct (Z.eqb_spec den 0) as [|_]; [contradiction|].
  destruct k as [|pk|pk]; [contradiction| |];
    destruct den as [|pd|pd]; try contradiction;
    cbn [Z.mul Z.abs] in *; unfold round_Z, binary_normalize.
  - exact (Hpos false false pk pd Hsmall).
  - exact (Hpos false true pk pd Hsmall).
  - exact (Hpos true false pk pd Hsmall).
  - exact (Hpos true true pk pd Hsmall).
Qed.

End F64Div.

Lemma fps_of_quotient (num den : Z) :
  den <> 0 ->
  fps_of num den
  = match SFdiv 53 1024 (int_operand num) (int_operand den) with
    | S754_infinity _ => Raise OverflowError
    | q => Ok (PyFloat q)
    end.
Proof.
  intros Hne. unfold fps_of, F64.int_truediv, F64.div, int_operand.
  apply Z.eqb_neq in Hne. rewrite Hne. cbn [negb].
  fold F64.prec F64.emax.
  now destruct (SFdiv F64.prec F64.emax _ _).
Qed.

(** C7, at a concrete input.  With the numerator 10^400 and the
    denominator 1 no frame rate is returned: the quotient is beyond the
    range of a float and the division raises [OverflowError]. *)
Lemma fps_quotient_overflows :
  let num := 10 ^ 400 in
  let den := 1 in
  den <> 0
  /\ fps_of num den = Raise OverflowError
  /\ parse_fps ("1" ++ zeros 400 ++ "/" ++ "1") = Raise OverflowError.
Proof. cbv zeta. split; [discriminate|split; vm_compute; reflexivity]. Qed.

(** C7, amended.  A zero denominator yields the default frame rate 25
    for every numerator.  A non-zero denominator yields the quotient of
    the two integers in binary64, as the IEEE-754 division of the
    standard library gives it for the integers themselves: it is exact
    when the denominator divides the numerator and the quotient is below
    2^53 in magnitude, and it is [OverflowError], the only exception,
    when it is beyond the range of a float.  This is what the probe makes
    of a frame-rate field [num/den] of two digit strings. *)
Theorem fps_zero_denominator_default (num den k : Z) :
  fps_of num 0 = Ok (PyInt 25)
  /\ (den <> 0 ->
      fps_of num den
      = match SFdiv 53 1024 (int_operand num) (int_operand den) with
        | S754_infinity _ => Raise OverflowError
        | q => Ok (PyFloat q)
        end)
  /\ (den <> 0 -> k <> 0 -> Z.abs k < 2 ^ 53 ->
      fps_of (k * den) den = Ok (PyFloat (F64.round_Z k)))
  /\ (forall e, fps_of num den = Raise e -> e = OverflowError)
  /\ (forall a b : string,
        digits a = true -> digits b = true ->
        short a = true -> short b = true ->
        parse_fps (a ++ "/" ++ b) = fps_of (decimal 0 a) (decimal 0 b)).
Proof.
  split; [reflexivity|]. split; [exact (fps_of_quotient num den)|].
  split; [|split].
  - intros Hden Hk Hsmall. unfold fps_of.
    apply Z.eqb_neq in Hden as Hd. rewrite Hd. cbn [negb].
    now rewrite (F64Div.int_truediv_exact k den Hden Hk Hsmall).
  - intros e. unfold fps_of, F64.int_truediv.
    destruct (den =? 0); cbn [negb]; [discriminate|].
    destruct (F64.div _ _); cbn [rbind]; try discriminate.
    now intros [= <-].
  - intros a b Ha Hb _ _.
    unfold parse_fps. simpl append.
    pose proof (proj2 (proj1 (digits_spec a) Ha)) as Ha'.
    pose proof (proj2 (proj1 (digits_spec b) Hb)) as Hb'.
    rewrite (split_pair "/" a b (digits_no_slash a Ha')
               (digits_no_slash b Hb')).
    now rewrite (int_of_digits a Ha), (int_of_digits b Hb).
Qed.

Lemma fps_zero_denominator_default_witness :
  parse_fps ("30000" ++ "/" ++ "0") = Ok (PyInt 25)
  /\ parse_fps ("60" ++ "/" ++ "2") = Ok (PyFloat (F64.round_Z 30))
  /\ fps_of 30000 1001
     = match SFdiv 53 1024 (int_operand 30000) (int_operand 1001) with
       | S754_infinity _ => Raise OverflowError
       | q => Ok (PyFloat q)
       end.
Proof.
  split; [|split].
  - destruct (fps_zero_denominator_default 30000 0 1)
      as (Hzero & _ & _ & _ & Hparse).
    rewrite (Hparse "30000" "0"); [exact Hzero|reflexivity..].
  - destruct (fps_zero_denominator_default 60 2 30)
      as (_ & _ & Hexact & _ & Hparse).
    rewrite (Hparse "60" "2"); [|reflexivity..].
    apply Hexact; [discriminate|discriminate|reflexivity].
  - destruct (fps_zero_denominator_default 30000 1001 1)
      as (_ & Hquot & _).
    apply Hquot. discriminate.
Defined.

(** ** The crossfade offsets *)

Lemma exact_spec (op : F64.float -> F64.float -> F64.float)
    (qop : Q -> Q -> Q) (x y : F64.float) :
  exact op qop x y = true ->
  F64.is_finite (op x y) = true
  /\ (F64.to_Q (op x y) == qop (F64.to_Q x) (F64.to_Q y))%Q.
Proof.
  unfold exact. intros H.
  apply andb_prop in H as [H Hq]. apply andb_prop in H as [_ Hf].
  split; [exact Hf|now apply Qeq_bool_eq].
Qed.

(** C4, at a concrete input: with the default [intro_visible = 4.0] and
    [crossfade_dur = 1.0] and the main duration [1.1], the difference of
    the two offsets is not the float [main_duration - crossfade_dur]. *)
Lemma offsets_difference_rounds :
  let main_duration := F64.div (F64.round_Z 11) (F64.round_Z 10) in
  let intro_visible := F64.round_Z 4 in
  let crossfade_dur := F64.round_Z 1 in
  F64.ltb crossfade_dur main_duration = true
  /\ F64.eqb
       (F64.sub (offset2 main_duration intro_visible crossfade_dur)
                (offset1 intro_visible))
       (F64.sub main_duration crossfade_dur) = false.
Proof. vm_compute. split; reflexivity. Qed.

(** C4, amended.  [offset1] is [intro_visible] and [offset2] is
    [offset1 + main_duration - crossfade_dur] evaluated from left to right
    in binary64; whenever these operations and the two differences are
    exact, [offset2 - offset1] and [main_duration - crossfade_dur] are the
    same number. *)
Theorem offsets_difference_when_exact
    (main_duration intro_visible crossfade_dur : F64.float) :
  let o1 := offset1 intro_visible in
  let o2 := offset2 main_duration intro_visible crossfade_dur in
  F64.ltb crossfade_dur main_duration = true ->
  exact F64.add Qplus intro_visible main_duration = true ->
  exact F64.sub Qminus (F64.add intro_visible main_duration) crossfade_dur
  = true ->
  exact F64.sub Qminus o2 o1 = true ->
  exact F64.sub Qminus main_duration crossfade_dur = true ->
  o1 = intro_visible
  /\ o2 = F64.sub (F64.add o1 main_duration) crossfade_dur
  /\ F64.is_finite (F64.sub o2 o1) = true
  /\ F64.is_finite (F64.sub main_duration crossfade_dur) = true
  /\ (F64.to_Q (F64.sub o2 o1)
      == F64.to_Q (F64.sub main_duration crossfade_dur))%Q.
Proof.
  intros o1 o2 _ Hadd Hsub Hdiff Hrhs.
  apply exact_spec in Hadd as [_ Hadd], Hsub as [_ Hsub].
  apply exact_spec in Hdiff as [Hf1 Hdiff], Hrhs as [Hf2 Hrhs].
  repeat split; try assumption.
  rewrite Hdiff, Hrhs.
  unfold o2, offset2, o1, offset1. rewrite Hsub, Hadd. ring.
Qed.

Lemma offsets_difference_when_exact_witness :
  let main_duration := F64.round_Z 20 in
  let intro_visible := F64.round_Z 4 in
  let crossfade_dur := F64.round_Z 1 in
  let o1 := offset1 intro_visible in
  let o2 := offset2 main_duration intro_visible crossfade_dur in
  o1 = intro_visible
  /\ o2 = F64.sub (F64.add o1 main_duration) crossfade_dur
  /\ F64.is_finite (F64.sub o2 o1) = true
  /\ F64.is_finite (F64.sub main_duration crossfade_dur) = true
  /\ (F64.to_Q (F64.sub o2 o1)
      == F64.to_Q (F64.sub main_duration crossfade_dur))%Q.
Proof.
  apply (offsets_difference_when_exact
           (F64.round_Z 20) (F64.round_Z 4) (F64.round_Z 1));
    vm_compute; reflexivity.
Defined.

(** ** The codec policy *)



(** ** Computations that never ask to exit *)

Lemma no_exit_ret {A : Type} (a : A) : no_exit_M (ret a).
Proof. intros st. exact I. Qed.















(** ** The batch loop *)



Lemma main_present (E : Env) (root : string) (argv : list string)
    (st : state) :
  FS.exists_ (fs st) (vid_dir root) = true ->
  main E root argv st
  = for_each (fun proj_dir => process_project E proj_dir (codec_of_argv argv))
      (proj_dirs root st) st.
Proof.
  intros H. unfold main, bind, get_fs, proj_dirs, vid_dir in *.
  now rewrite H.
Qed.


(** With its three inputs present, [process_project] is the pipeline run
    from the state [entered]. *)
Lemma process_project_pipeline (E : Env) (proj_dir codec : string)
    (st : state) (main_video : string) (others : list string) :
  FS.glob_mp4 (fs (entered proj_dir st)) proj_dir = main_video :: others ->
  FS.exists_ (fs (entered proj_dir st)) (Path.child proj_dir "intro.png")
  = true ->
  FS.exists_ (fs (entered proj_dir st)) (Path.child proj_dir "outro.png")
  = true ->
  process_project E proj_dir codec st
  = run_pipeline E proj_dir codec main_video (entered proj_dir st).
Proof.
  intros Hg Hi Ho. unfold process_project.
  unfold bind at 1. unfold emit at 1.
  unfold bind at 1. unfold get_fs at 1. cbn [fs log].
  unfold bind at 1. unfold put_fs at 1. cbn [fs log].
  unfold bind at 1. unfold get_fs at 1. cbn [fs log].
  unfold entered in Hg, Hi, Ho. cbn [fs] in Hg, Hi, Ho.
  now rewrite Hg, Hi, Ho.
Qed.




Lemma exists_of_is_dir (f : filesystem) (p : string) :
  FS.is_dir f p = true -> FS.exists_ f p = true.
Proof.
  unfold FS.is_dir, FS.exists_. now destruct (FS.lookup f p) as [[]|].
Qed.






(** ** Paths and directories created by [process_project] *)

Lemma split_from_nonempty (sep : ascii) (cur s : string) :
  Py.split_from sep cur s <> [].
Proof.
  revert cur; induction s as [|x r IH]; intros cur; simpl; [discriminate|].
  destruct (Ascii.eqb x sep); [discriminate|apply IH].
Qed.

Lemma last_split_from (sep : ascii) (a b cur : string) :
  Py.contains (String sep "") b = false ->
  last (Py.split_from sep cur (a ++ String sep b)) "" = b.
Proof.
  intros Hb. revert cur; induction a as [|x r IH]; intros cur.
  - cbn [append Py.split_from]. rewrite Ascii.eqb_refl.
    now rewrite split_from_no_sep.
  - cbn [append Py.split_from].
    destruct (Ascii.eqb x sep); [|apply IH].
    pose proof (split_from_nonempty sep "" (r ++ String sep b)) as Hne.
    specialize (IH "").
    destruct (Py.split_from sep "" (r ++ String sep b)); [congruence|].
    exact IH.
Qed.

(** The name of [d / n] is [n]. *)
Lemma name_child (d n : string) :
  Py.contains "/" n = false -> Path.name (Path.child d n) = n.
Proof.
  intros H. unfold Path.name, Path.child, Py.split.
  now apply last_split_from.
Qed.

Lemma append_inj_l (a b c : string) : a ++ b = a ++ c -> b = c.
Proof. induction a as [|x a IH]; simpl; [auto|]. intros [= H]. auto. Qed.

Lemma child_inj (d m n : string) :
  Path.child d m = Path.child d n -> m = n.
Proof.
  unfold Path.child. intros H.
  apply append_inj_l in H. now injection H.
Qed.

Lemma lookup_app (f : filesystem) (q p : string) (k : kind) :
  FS.lookup (f ++ [(q, k)])%list p
  = match FS.lookup f p with
    | Some k' => Some k'
    | None => if String.eqb q p then Some k else None
    end.
Proof.
  induction f as [|[q' k'] f IH]; simpl; [reflexivity|].
  now destruct (String.eqb q' p).
Qed.

Lemma exists_mkdir_other (f : filesystem) (q p : string) :
  q <> p -> FS.exists_ (FS.mkdir f q) p = FS.exists_ f p.
Proof.
  intros Hne. unfold FS.mkdir. destruct (FS.exists_ f q); [reflexivity|].
  unfold FS.exists_. rewrite lookup_app.
  apply String.eqb_neq in Hne. rewrite Hne.
  now destruct (FS.lookup f p).
Qed.

(** [mkdir] creates no regular file. *)
Lemma is_file_mkdir (f : filesystem) (q p : string) :
  FS.is_file (FS.mkdir f q) p = FS.is_file f p.
Proof.
  unfold FS.mkdir. destruct (FS.exists_ f q); [reflexivity|].
  unfold FS.is_file. rewrite lookup_app.
  destruct (FS.lookup f p); [reflexivity|].
  now destruct (String.eqb q p).
Qed.

Lemma glob_mkdir (f : filesystem) (d n : string) :
  Py.contains "/" n = false -> Py.endswith n ".mp4" = false ->
  FS.glob_mp4 (FS.mkdir f (Path.child d n)) d = FS.glob_mp4 f d.
Proof.
  intros Hn Hend. unfold FS.mkdir.
  destruct (FS.exists_ f (Path.child d n)); [reflexivity|].
  unfold FS.glob_mp4, FS.iterdir.
  rewrite filter_app, map_app, filter_app.
  rewrite <- (app_nil_r (filter _ (map fst (filter _ f)))) at 2.
  f_equal.
  cbn [filter fst].
  destruct (String.eqb (Path.parent (Path.child d n)) d); [|reflexivity].
  cbn [map filter fst].
  now rewrite (name_child d n Hn), Hend.
Qed.

Lemma glob_entered (proj_dir : string) (st : state) :
  FS.glob_mp4 (fs (entered proj_dir st)) proj_dir
  = FS.glob_mp4 (fs st) proj_dir.
Proof.
  unfold entered, work_dir, final_dir. cbn [fs].
  now rewrite !glob_mkdir.
Qed.

Lemma exists_entered (proj_dir n : string) (st : state) :
  n <> "02_Work" -> n <> "03_Final" ->
  FS.exists_ (fs (entered proj_dir st)) (Path.child proj_dir n)
  = FS.exists_ (fs st) (Path.child proj_dir n).
Proof.
  intros H2 H3. unfold entered, work_dir, final_dir. cbn [fs].
  rewrite !exists_mkdir_other; [reflexivity| |];
    intros H; apply child_inj in H; congruence.
Qed.

Lemma is_file_entered (proj_dir p : string) (st : state) :
  FS.is_file (fs (entered proj_dir st)) p = FS.is_file (fs st) p.
Proof. unfold entered. cbn [fs]. now rewrite !is_file_mkdir. Qed.

(** ** A project with a missing input *)

Lemma process_project_skip (E : Env) (proj_dir codec : string) (st : state) :
  FS.glob_mp4 (fs st) proj_dir = []
  \/ FS.exists_ (fs st) (Path.child proj_dir "intro.png") = false
  \/ FS.exists_ (fs st) (Path.child proj_dir "outro.png") = false ->
  exists warning,
    process_project E proj_dir codec st
    = (Ok tt, mkState (fs (entered proj_dir st))
                (log (entered proj_dir st) ++ [Print warning]))
    /\ (warning = "⚠️ No main video found in " ++ proj_dir
        \/ warning = "⚠️ Missing intro/outro in " ++ proj_dir).
Proof.
  intros H. unfold process_project.
  unfold bind at 1. unfold emit at 1.
  unfold bind at 1. unfold get_fs at 1. cbn [fs log].
  unfold bind at 1. unfold put_fs at 1. cbn [fs log].
  unfold bind at 1. unfold get_fs at 1. cbn [fs log].
  pose proof (glob_entered proj_dir st) as Hg.
  pose proof (exists_entered proj_dir "intro.png" st
                ltac:(discriminate) ltac:(discriminate)) as Hi.
  pose proof (exists_entered proj_dir "outro.png" st
                ltac:(discriminate) ltac:(discriminate)) as Ho.
  unfold entered in *. cbn [fs log] in *.
  rewrite Hg, Hi, Ho.
  destruct (FS.glob_mp4 (fs st) proj_dir) as [|mv l].
  - eexists. split; [reflexivity|now left].
  - destruct H as [H|[H|H]]; [discriminate| |]; rewrite H.
    + eexists. split; [reflexivity|now right].
    + rewrite orb_true_r. eexists. split; [reflexivity|now right].
Qed.



(** ** A project that renders *)

Lemma bind_ok {A B : Type} (c : M A) (k : A -> M B) (a : A)
    (st st' : state) :
  c st = (Ok a, st') -> bind c k st = k a st'.
Proof. intros H. unfold bind. now rewrite H. Qed.

Lemma run_checked_ok (E : Env) (cmd : list string) (out : string)
    (st : state) :
  ffprobe E (fs st) cmd = (0, out) ->
  run_checked E cmd st = (Ok out, mkState (fs st) (log st ++ [Probe cmd])).
Proof.
  intros H. unfold run_checked, bind, get_fs, emit. cbn [fs log].
  now rewrite H.
Qed.

Lemma get_duration_ok (E : Env) (p out : string) (x : F64.float)
    (st : state) :
  ffprobe E (fs st) (duration_cmd p) = (0, out) ->
  py_float E (Py.strip out) = Some x ->
  get_duration E p st
  = (Ok x, mkState (fs st) (log st ++ [Probe (duration_cmd p)])).
Proof.
  intros Hp Hf. unfold get_duration.
  rewrite (bind_ok _ _ _ _ _ (run_checked_ok E _ out st Hp)).
  now rewrite Hf.
Qed.



Lemma process_project_complete (E : Env) (proj_dir codec : string)
    (st : state) (main_video : string) (others : list string) :
  FS.glob_mp4 (fs st) proj_dir = main_video :: others ->
  FS.exists_ (fs st) (Path.child proj_dir "intro.png") = true ->
  FS.exists_ (fs st) (Path.child proj_dir "outro.png") = true ->
  process_project E proj_dir codec st
  = run_pipeline E proj_dir codec main_video (entered proj_dir st).
Proof.
  intros Hg Hi Ho.
  rewrite <- glob_entered in Hg.
  rewrite <- (exists_entered proj_dir "intro.png" st) in Hi by discriminate.
  rewrite <- (exists_entered proj_dir "outro.png" st) in Ho by discriminate.
  exact (process_project_pipeline E proj_dir codec st _ _ Hg Hi Ho).
Qed.




(** ** The command line *)

Lemma codec_of_argv_skip (pre rest : list string) :
  ~ In "--codec" pre ->
  codec_of_argv (pre ++ rest)%list = codec_of_argv rest.
Proof.
  induction pre as [|a pre IH]; intros H; [reflexivity|].
  cbn [app codec_of_argv].
  destruct (String.eqb_spec a "--codec") as [->|Hne].
  - exfalso. apply H. now left.
  - apply IH. intros Hin. apply H. now right.
Qed.

(** X1.  The value that follows the first [--codec] of the command line
    is the codec, lower-cased; later flags and arguments are ignored. *)
Theorem codec_of_argv_first_flag (pre post : list string) (v : string) :
  ~ In "--codec" pre ->
  codec_of_argv (pre ++ "--codec" :: v :: post)%list = Py.lower v.
Proof.
  intros H. rewrite (codec_of_argv_skip pre _ H). reflexivity.
Qed.

Lemma codec_of_argv_first_flag_witness :
  codec_of_argv
    (["process_videos.py"; "-v"] ++ "--codec" :: "H264" :: ["--codec"; "h265"])%list
  = Py.lower "H264".
Proof.
  apply (codec_of_argv_first_flag ["process_videos.py"; "-v"]
           ["--codec"; "h265"] "H264").
  intros [H|[H|[]]]; discriminate H.
Defined.

(** X2.  Without a [--codec] flag, and also when the flag is the last
    argument and has no value, the codec is [h265_nvenc]. *)
Theorem codec_of_argv_default (argv : list string) :
  ~ In "--codec" argv ->
  codec_of_argv argv = "h265_nvenc"
  /\ codec_of_argv (argv ++ ["--codec"])%list = "h265_nvenc".
Proof.
  intros H. split.
  - rewrite <- (app_nil_r argv). now rewrite (codec_of_argv_skip argv [] H).
  - now rewrite (codec_of_argv_skip argv _ H).
Qed.

Lemma codec_of_argv_default_witness :
  codec_of_argv ["process_videos.py"] = "h265_nvenc"
  /\ codec_of_argv (["process_videos.py"] ++ ["--codec"])%list = "h265_nvenc".
Proof.
  apply (codec_of_argv_default ["process_videos.py"]).
  intros [H|[]]; discriminate H.
Defined.

Lemma lower_char_idem (a : ascii) :
  Py.lower_char (Py.lower_char a) = Py.lower_char a.
Proof. destruct a as [[] [] [] [] [] [] [] []]; reflexivity. Qed.

Lemma lower_idem (s : string) : Py.lower (Py.lower s) = Py.lower s.
Proof.
  induction s as [|a r IH]; [reflexivity|].
  cbn [Py.lower]. now rewrite lower_char_idem, IH.
Qed.

(** X3.  Whatever the command line, the codec name handed to the projects
    is in lower case: an upper-case or mixed-case name selects the encoder
    of its lower-case form. *)
Theorem codec_of_argv_lower (argv : list string) :
  Py.lower (codec_of_argv argv) = codec_of_argv argv.
Proof.
  induction argv as [|a rest IH]; [reflexivity|].
  cbn [codec_of_argv].
  destruct (String.eqb a "--codec"); [|exact IH].
  destruct rest as [|v rest']; [reflexivity|apply lower_idem].
Qed.

(** ** More on the time-parsing step *)

(** X4.  The test ["time=" in line] never hides a match of the pattern:
    a line the pattern matches contains [time=], and a line without
    [time=] has no timestamp. *)
Theorem pattern_match_contains_time (line : string) :
  (forall g, Re.search time_pattern line = Some g ->
             Py.contains "time=" line = true)
  /\ (Py.contains "time=" line = false -> parse_time line = Ok None).
Proof.
  assert (H : forall g, Re.search time_pattern line = Some g ->
                        Py.contains "time=" line = true).
  { intros g Hs.
    apply search_sound in Hs as (pre & t & -> & Hm).
    unfold time_pattern in Hm.
    apply match_lit_inv in Hm as (r & -> & _).
    apply contains_app_r, contains_self_app. }
  split; [exact H|].
  intros Hc. unfold parse_time.
  destruct (Re.search time_pattern line) as [g|] eqn:Hs; [|reflexivity].
  rewrite (H g eq_refl) in Hc. discriminate Hc.
Qed.

Lemma pattern_match_contains_time_witness :
  parse_time "video:500kB audio:80kB" = Ok None.
Proof.
  apply (pattern_match_contains_time "video:500kB audio:80kB").
  reflexivity.
Defined.

Lemma to_seconds_only_overflow (h m s ms : Z) (e : exn) :
  to_seconds h m s ms = Raise e -> e = OverflowError.
Proof.
  unfold to_seconds, F64.of_int.
  destruct (F64.round_Z ms); simpl; try discriminate;
    try (now intros [= <-]);
    destruct (F64.round_Z (h * 3600 + m * 60 + s)); simpl;
    try discriminate; now intros [= <-].
Qed.

Lemma parse_time_raise (line : string) (e : exn) :
  parse_time line = Raise e -> e = OverflowError.
Proof.
  unfold parse_time.
  destruct (Re.search time_pattern line) as [g|] eqn:Hs; [|discriminate].
  apply search_sound in Hs as (pre & t & _ & Hm).
  apply match_time_groups in Hm as (h & m & s & ms & -> & Hh & Hm & Hs & Hms).
  unfold seconds_of_groups.
  rewrite !int_of_digits by assumption. cbn [rbind].
  destruct (to_seconds _ _ _ _) as [x|e'] eqn:Ht; [discriminate|].
  cbn [rbind]. intros [= <-].
  now apply to_seconds_only_overflow in Ht.
Qed.

(** X5.  The outcomes of the time-parsing step on a line of at most 4300
    characters: a value is never negative and never a NaN, and the only
    exception is [OverflowError] (the groups of a match are digit strings,
    which [int] reads when they are within its limit of 4300 digits);
    that exception does occur, for an hours field of 401 digits. *)
Theorem parse_time_outcome :
  (forall line : string,
      short line = true ->
      match parse_time line with
      | Ok (Some x) => F64.nonneg x = true /\ F64.is_nan x = false
      | Ok None => Re.search time_pattern line = None
      | Raise e => e = OverflowError
      end)
  /\ short huge_hours_line = true
  /\ parse_time huge_hours_line = Raise OverflowError.
Proof.
  split; [|split; vm_compute; reflexivity].
  intros line _. destruct (parse_time line) as [[x|]|e] eqn:Hp.
  - pose proof (parse_time_nonneg line x Hp) as Hn.
    split; [exact Hn|]. now destruct x as [| [] | |].
  - unfold parse_time in Hp.
    destruct (Re.search time_pattern line) as [g|]; [|reflexivity].
    destruct (seconds_of_groups g); discriminate Hp.
  - now apply (parse_time_raise line).
Qed.

Lemma parse_time_outcome_witness :
  match parse_time "time=00:01:10.07 bitrate= 524.3kbits/s" with
  | Ok (Some x) => F64.nonneg x = true /\ F64.is_nan x = false
  | Ok None =>
      Re.search time_pattern "time=00:01:10.07 bitrate= 524.3kbits/s" = None
  | Raise e => e = OverflowError
  end.
Proof.
  apply (proj1 parse_time_outcome "time=00:01:10.07 bitrate= 524.3kbits/s").
  reflexivity.
Defined.




(** ** More on the runner *)

Lemma for_each_on_line_raise (E : Env) (total_duration : option F64.float)
    (lines : list string) (st st' : state) (e : exn) :
  for_each (on_line E total_duration) lines st = (Raise e, st') ->
  e = OverflowError.
Proof.
  revert st; induction lines as [|line rest IH]; intros st; [discriminate|].
  cbn [for_each]. unfold bind at 1.
  destruct (on_line E total_duration line st) as [[[]|e'] s1] eqn:Hl.
  - apply IH.
  - intros [= <- <-].
    unfold on_line in Hl.
    destruct total_duration as [total|]; [|discriminate].
    destruct (_ && _); [|discriminate].
    unfold bind, lift in Hl.
    destruct (parse_time line) as [[x|]|e''] eqn:Hp; try discriminate.
    injection Hl as <- _. now apply (parse_time_raise line).
Qed.

(** One run, step by step: the loop over the stream runs from the state
    in which the command is printed and launched; an exception of the loop
    ends the run, otherwise the bar is closed and the return code
    decides. *)
Lemma run_ffmpeg_cases (E : Env) (cmd : list string)
    (total_duration : option F64.float) (desc : string) (st : state) :
  let launched :=
    mkState (snd (ffmpeg E (fs st) cmd))
      (log st ++ [Print ("▶ Running: " ++ Py.join " " cmd);
                  Launch cmd total_duration desc]) in
  let read :=
    mkState (snd (ffmpeg E (fs st) cmd))
      (log launched ++ shown E total_duration (stream_of E st cmd)) in
  exists r,
    for_each (on_line E total_duration) (stream_of E st cmd) launched
    = (r, read)
    /\ run_ffmpeg_with_progress E cmd total_duration desc st
       = match r with
         | Raise e => (Raise e, read)
         | Ok _ =>
             (exit_outcome (returncode_of E st cmd) cmd,
              mkState (fs read) (log read ++ closing E total_duration))
         end.
Proof.
  intros launched read.
  destruct (for_each_on_line E total_duration (stream_of E st cmd) launched)
    as (r & Hr & _).
  exists r. split; [exact Hr|].
  unfold run_ffmpeg_with_progress.
  unfold bind at 1. unfold emit at 1. cbn [fs log].
  unfold bind at 1. unfold get_fs at 1. cbn [fs log].
  unfold stream_of, returncode_of, exit_outcome in *.
  subst read launched. cbn [fs log] in *.
  destruct (ffmpeg E (fs st) cmd) as [[lines rc] f'] eqn:Hff.
  cbn [fst snd] in *.
  unfold bind at 1. unfold emit at 1. cbn [fs log].
  unfold bind at 1. unfold put_fs at 1. cbn [fs log].
  unfold bind at 1.
  rewrite <- app_assoc. cbn [app].
  rewrite Hr.
  destruct r as [[]|e]; [|reflexivity].
  unfold bind at 1. unfold closing, tracking.
  destruct total_duration as [total|].
  - destruct (F64.truthy total && pbar_truthy E total).
    + unfold emit. cbn [fs log].
      destruct (rc =? 0); reflexivity.
    + unfold ret at 1.
      destruct (rc =? 0); cbn [negb]; unfold ret, raise;
        symmetry; f_equal; f_equal; apply app_nil_r.
  - unfold ret at 1.
    destruct (rc =? 0); cbn [negb]; unfold ret, raise;
      symmetry; f_equal; f_equal; apply app_nil_r.
Qed.

Lemma for_each_on_line_idle (E : Env) (total_duration : option F64.float)
    (lines : list string) (st : state) :
  tracking E total_duration = false ->
  for_each (on_line E total_duration) lines st = (Ok tt, st).
Proof.
  intros Ht. induction lines as [|line rest IH]; [reflexivity|].
  cbn [for_each]. unfold bind at 1.
  assert (Hl : on_line E total_duration line st = (Ok tt, st)).
  { unfold on_line. destruct total_duration as [total|]; [|reflexivity].
    cbn [tracking] in Ht. rewrite <- andb_assoc, Ht, andb_false_r.
    reflexivity. }
  now rewrite Hl.
Qed.

(** X7.  Without a total duration (or with a total of zero, or a bar that
    is false) the stream is read but not parsed: the run prints the
    command, launches it, and ends by the return code alone, whatever the
    lines of the stream are. *)
Theorem run_without_progress (E : Env) (cmd : list string)
    (total_duration : option F64.float) (desc : string) (st : state) :
  tracking E total_duration = false ->
  run_ffmpeg_with_progress E cmd total_duration desc st
  = (exit_outcome (returncode_of E st cmd) cmd,
     mkState (snd (ffmpeg E (fs st) cmd))
       (log st ++ [Print ("▶ Running: " ++ Py.join " " cmd);
                   Launch cmd total_duration desc])).
Proof.
  intros Ht.
  destruct (run_ffmpeg_cases E cmd total_duration desc st)
    as (r & Hloop & Hrun).
  rewrite (for_each_on_line_idle E total_duration _ _ Ht) in Hloop.
  injection Hloop as <- Hread.
  rewrite Hrun. cbn [fs log].
  assert (Hshown : shown E total_duration (stream_of E st cmd) = []).
  { unfold shown. destruct total_duration; [now rewrite Ht|reflexivity]. }
  assert (Hclose : closing E total_duration = []).
  { unfold closing. destruct total_duration; [now rewrite Ht|reflexivity]. }
  now rewrite Hshown, Hclose, !app_nil_r.
Qed.

Lemma run_without_progress_witness :
  let E := Fixture.env [huge_hours_line] Fixture.never in
  let cmd := ["ffmpeg"; "-y"; "-i"; "in.mp4"; "out.mp4"] in
  let st := Fixture.start Fixture.demo_fs in
  run_ffmpeg_with_progress E cmd None "Processing" st
  = (exit_outcome (returncode_of E st cmd) cmd,
     mkState (snd (ffmpeg E (fs st) cmd))
       (log st ++ [Print ("▶ Running: " ++ Py.join " " cmd);
                   Launch cmd None "Processing"])).
Proof.
  intros E cmd st.
  apply (run_without_progress E cmd None "Processing" st).
  reflexivity.
Defined.





(** ** More on the probes *)




Lemma rstrip_plain (s : string) : plain s = true -> Py.rstrip s = s.
Proof.
  induction s as [|a r IH]; [reflexivity|].
  simpl. intros H. apply andb_prop in H as [Ha Hr].
  apply negb_true_iff in Ha. rewrite (IH Hr), Ha. now destruct r.
Qed.

Lemma rstrip_app (x y : string) :
  Py.rstrip (x ++ y)
  = match Py.rstrip y with
    | EmptyString => Py.rstrip x
    | _ => x ++ Py.rstrip y
    end.
Proof.
  induction x as [|a r IH]; [cbn [append]; now destruct (Py.rstrip y)|].
  cbn [append Py.rstrip]. rewrite IH.
  destruct (Py.rstrip y); [reflexivity|destruct r; reflexivity].
Qed.


Lemma rstrip_blank (s : string) : blank s = true -> Py.rstrip s = "".
Proof.
  induction s as [|a r IH]; [reflexivity|].
  simpl. intros H. apply andb_prop in H as [Ha Hr].
  now rewrite (IH Hr), Ha.
Qed.

Lemma lstrip_blank (s : string) : blank s = true -> Py.lstrip s = "".
Proof.
  induction s as [|a r IH]; [reflexivity|].
  simpl. intros H. apply andb_prop in H as [Ha Hr].
  now rewrite Ha, IH.
Qed.





Lemma strip_blank (s : string) : blank s = true -> Py.strip s = "".
Proof. intros H. unfold Py.strip. now rewrite (lstrip_blank s H). Qed.

(** X11.  When the probe succeeds but prints nothing but white space (a
    file without a video stream), [get_stream_info] raises [ValueError];
    the probe is logged and the file system is as before. *)
Theorem get_stream_info_blank_output (E : Env) (video_path out : string)
    (st : state) :
  ffprobe E (fs st) (stream_info_cmd video_path) = (0, out) ->
  blank out = true ->
  get_stream_info E video_path st
  = (Raise ValueError,
     mkState (fs st) (log st ++ [Probe (stream_info_cmd video_path)])).
Proof.
  intros Hp Hb. unfold get_stream_info.
  rewrite (bind_ok _ _ _ _ _ (run_checked_ok E _ out st Hp)).
  unfold lift, parse_stream_info. now rewrite (strip_blank out Hb).
Qed.

Lemma get_stream_info_blank_output_witness :
  get_stream_info (probe_env 0 (String Py.LF "")) "audio_only.mp4"
    (Fixture.start Fixture.demo_fs)
  = (Raise ValueError,
     mkState Fixture.demo_fs [Probe (stream_info_cmd "audio_only.mp4")]).
Proof.
  apply (get_stream_info_blank_output (probe_env 0 (String Py.LF ""))
           "audio_only.mp4" (String Py.LF "") (Fixture.start Fixture.demo_fs));
    reflexivity.
Defined.

(** ** The filter graph *)

(** X12.  With the timings [process_project] leaves at their defaults
    (4.0, 1.0, 4.0) the graph is built whatever the duration, the size
    and the frame rate are, a NaN or an infinite duration included.  The
    video chain ends in the label [outv]; the audio chain is delayed by
    4000 ms on both channels and ends in the label [aout]. *)
Theorem crossfade_defaults_build (E : Env) (intro_img main_video outro_img
    : string) (main_duration : F64.float) (w h : Z) (fps : pynum) :
  exists video audio : string,
    build_crossfade_filter E intro_img main_video outro_img main_duration
      w h fps (F64.round_Z 4) (F64.round_Z 1) (F64.round_Z 4)
    = Ok (video ++ "[outv];" ++ audio
          ++ "[a1]adelay=4000|4000,asetpts=PTS-STARTPTS[aout]").
Proof.
  unfold build_crossfade_filter.
  replace (intro_ms (F64.round_Z 4)) with (@Ok Z 4000)
    by (vm_compute; reflexivity).
  cbn [rbind].
  replace (Py.str_int 4000) with "4000" by (vm_compute; reflexivity).
  match goal with
  | |- exists video audio : string,
         Ok (?N1 ++ ?N2 ++ ?N3 ++ ?L1 ++ ?c1 ++ ?L2 ++ ?o1 ++ ?L3 ++ ?L4
             ++ ?c2 ++ ?L5 ++ ?o2 ++ "[outv];" ++ ?A1 ++ ?st ++ ?D ++ ?c3
             ++ ?A2 ++ ?rest) = _ =>
      exists (N1 ++ N2 ++ N3 ++ L1 ++ c1 ++ L2 ++ o1 ++ L3 ++ L4
              ++ c2 ++ L5 ++ o2),
             (A1 ++ st ++ D ++ c3 ++ A2)
  end.
  rewrite !append_assoc.
  reflexivity.
Qed.

(** ** Paths of the outputs *)

Lemma contains_char_app (c : ascii) (a b : string) :
  Py.contains (String c "") (a ++ b)
  = Py.contains (String c "") a || Py.contains (String c "") b.
Proof.
  induction a as [|x r IH].
  - destruct b; reflexivity.
  - change (String x r ++ b) with (String x (r ++ b)).
    rewrite !contains_char_cons, IH. now rewrite orb_assoc.
Qed.

(** The parts of a split do not contain the separator. *)
Lemma split_from_parts (sep : ascii) (cur s : string) :
  Py.contains (String sep "") cur = false ->
  Forall (fun part => Py.contains (String sep "") part = false)
    (Py.split_from sep cur s).
Proof.
  revert cur; induction s as [|x r IH]; intros cur Hcur.
  - cbn [Py.split_from]. constructor; [exact Hcur|constructor].
  - cbn [Py.split_from]. destruct (Ascii.eqb x sep) eqn:Hx.
    + constructor; [exact Hcur|]. apply IH. reflexivity.
    + apply IH. rewrite contains_char_app, Hcur.
      rewrite contains_char_cons, Hx. reflexivity.
Qed.

Lemma name_no_slash (p : string) : Py.contains "/" (Path.name p) = false.
Proof.
  unfold Path.name, Py.split.
  pose proof (split_from_parts "/" "" p eq_refl) as H.
  pose proof (split_from_nonempty "/" "" p) as Hne.
  induction H as [|a l Ha Hl IH]; [congruence|].
  destruct l as [|b l]; [exact Ha|].
  apply IH. discriminate.
Qed.

Lemma join_split_from (sep : ascii) (cur s : string) :
  Py.join (String sep "") (Py.split_from sep cur s) = cur ++ s.
Proof.
  revert cur; induction s as [|x r IH]; intros cur.
  - cbn [Py.split_from Py.join]. now rewrite append_nil_r.
  - cbn [Py.split_from]. destruct (Ascii.eqb_spec x sep) as [->|Hne].
    + pose proof (split_from_nonempty sep "" r) as Hn.
      specialize (IH "").
      cbn [Py.join].
      destruct (Py.split_from sep "" r) as [|a l]; [congruence|].
      now rewrite IH.
    + rewrite IH, append_assoc. reflexivity.
Qed.

Lemma split_from_snoc (sep : ascii) (a b cur : string) :
  Py.contains (String sep "") b = false ->
  Py.split_from sep cur (a ++ String sep b)
  = (Py.split_from sep cur a ++ [b])%list.
Proof.
  intros Hb. revert cur; induction a as [|x r IH]; intros cur.
  - cbn [append Py.split_from]. rewrite Ascii.eqb_refl.
    now rewrite split_from_no_sep.
  - cbn [append Py.split_from].
    destruct (Ascii.eqb x sep); [|apply IH].
    now rewrite IH.
Qed.

(** The parent of [d / n] is [d]. *)
Lemma parent_child (d n : string) :
  Py.contains "/" n = false -> Path.parent (Path.child d n) = d.
Proof.
  intros H. unfold Path.parent, Path.child, Py.split.
  change (d ++ "/" ++ n) with (d ++ String "/" n).
  rewrite split_from_snoc by exact H.
  rewrite removelast_last.
  apply (join_split_from "/" "" d).
Qed.

Lemma append_not_self (d s : string) : s <> "" -> d ++ s <> d.
Proof.
  intros Hs H. apply Hs.
  apply (append_inj_l d). now rewrite append_nil_r.
Qed.

Lemma glob_parent (f : filesystem) (d p : string) :
  In p (FS.glob_mp4 f d) -> Path.parent p = d.
Proof.
  unfold FS.glob_mp4, FS.iterdir.
  rewrite filter_In, in_map_iff.
  intros [([q k] & <- & Hq) _].
  apply filter_In in Hq as [_ Hq]. now apply String.eqb_eq.
Qed.

(** X13.  The two outputs of a project lie one level below it, in
    [02_Work] and [03_Final]: the result is named after the project, and
    neither output is among the [*.mp4] files of the project directory,
    so a later run over the same tree does not take an output for the
    main video. *)
Theorem outputs_outside_glob (f : filesystem) (proj_dir : string) :
  Path.name (final_video proj_dir) = Path.name proj_dir ++ "_final.mp4"
  /\ Path.parent (final_video proj_dir) = Path.child proj_dir "03_Final"
  /\ Path.parent (normalized_video proj_dir) = Path.child proj_dir "02_Work"
  /\ ~ In (normalized_video proj_dir) (FS.glob_mp4 f proj_dir)
  /\ ~ In (final_video proj_dir) (FS.glob_mp4 f proj_dir).
Proof.
  assert (Hn : Py.contains "/" (Path.name proj_dir ++ "_final.mp4") = false).
  { rewrite (contains_char_app "/"). now rewrite name_no_slash. }
  assert (Hpf : Path.parent (final_video proj_dir)
                = Path.child proj_dir "03_Final").
  { unfold final_video, final_dir. now apply parent_child. }
  assert (Hpn : Path.parent (normalized_video proj_dir)
                = Path.child proj_dir "02_Work").
  { unfold normalized_video, work_dir. now apply parent_child. }
  split; [unfold final_video; now apply name_child|].
  split; [exact Hpf|]. split; [exact Hpn|].
  split; intros Hin; apply glob_parent in Hin.
  - rewrite Hpn in Hin. revert Hin. now apply append_not_self.
  - rewrite Hpf in Hin. revert Hin. now apply append_not_self.
Qed.

(** ** Projects that are skipped *)

Lemma incomplete_spec (f : filesystem) (proj_dir : string) :
  incomplete f proj_dir = true ->
  FS.glob_mp4 f proj_dir = []
  \/ FS.exists_ f (Path.child proj_dir "intro.png") = false
  \/ FS.exists_ f (Path.child proj_dir "outro.png") = false.
Proof.
  unfold incomplete. destruct (FS.glob_mp4 f proj_dir); [now left|].
  intros H. apply orb_prop in H as [H|H]; apply negb_true_iff in H; auto.
Qed.

Lemma lookup_mkdir (f : filesystem) (q p : string) :
  FS.lookup (FS.mkdir f q) p
  = match FS.lookup f p with
    | Some k => Some k
    | None => if String.eqb q p then Some Dir else None
    end.
Proof.
  unfold FS.mkdir, FS.exists_.
  destruct (FS.lookup f q) as [k|] eqn:Hq; [|apply lookup_app].
  destruct (FS.lookup f p) as [k'|] eqn:Hp; [reflexivity|].
  destruct (String.eqb_spec q p) as [->|Hne]; congruence.
Qed.

Lemma is_dir_mkdir (f : filesystem) (q : string) :
  FS.is_file f q = false -> FS.is_dir (FS.mkdir f q) q = true.
Proof.
  unfold FS.is_file, FS.is_dir. rewrite lookup_mkdir, String.eqb_refl.
  now destruct (FS.lookup f q) as [[]|].
Qed.

Lemma is_dir_mkdir_keep (f : filesystem) (q p : string) :
  FS.is_dir f p = true -> FS.is_dir (FS.mkdir f q) p = true.
Proof.
  unfold FS.is_dir. rewrite lookup_mkdir.
  now destruct (FS.lookup f p) as [[]|].
Qed.

Lemma mkdir_present (f : filesystem) (q : string) :
  FS.exists_ f q = true -> FS.mkdir f q = f.
Proof. unfold FS.mkdir. now intros ->. Qed.

Lemma glob_mkdir_any (f : filesystem) (q d : string) :
  Py.endswith (Path.name q) ".mp4" = false ->
  FS.glob_mp4 (FS.mkdir f q) d = FS.glob_mp4 f d.
Proof.
  intros Hend. unfold FS.mkdir.
  destruct (FS.exists_ f q); [reflexivity|].
  unfold FS.glob_mp4, FS.iterdir.
  rewrite filter_app, map_app, filter_app.
  rewrite <- (app_nil_r (filter _ (map fst (filter _ f)))) at 2.
  f_equal.
  cbn [filter fst].
  destruct (String.eqb (Path.parent q) d); [|reflexivity].
  cbn [map filter fst]. now rewrite Hend.
Qed.

Lemma child_names_differ (d1 d2 m n : string) :
  Py.contains "/" m = false -> Py.contains "/" n = false -> m <> n ->
  Path.child d1 m <> Path.child d2 n.
Proof.
  intros Hm Hn Hne H. apply Hne.
  rewrite <- (name_child d1 m Hm), <- (name_child d2 n Hn). now rewrite H.
Qed.

(** Entering a project changes nothing for the checks of any project. *)
Lemma incomplete_entered (d1 d2 : string) (st : state) :
  incomplete (fs (entered d1 st)) d2 = incomplete (fs st) d2.
Proof.
  unfold incomplete, entered, work_dir, final_dir. cbn [fs].
  rewrite !glob_mkdir_any
    by (rewrite name_child by reflexivity; reflexivity).
  rewrite !exists_mkdir_other
    by (apply child_names_differ; (reflexivity || discriminate)).
  reflexivity.
Qed.

(** X14.  A project that is skipped is not left untouched: its two
    sub-directories exist afterwards (when no regular file bears their
    names), every entry there was is kept, and processing the project a
    second time changes nothing more. *)
Theorem skipped_project_directories (E : Env) (proj_dir codec : string)
    (st : state) :
  incomplete (fs st) proj_dir = true ->
  FS.is_file (fs st) (Path.child proj_dir "02_Work") = false ->
  FS.is_file (fs st) (Path.child proj_dir "03_Final") = false ->
  let st' := snd (process_project E proj_dir codec st) in
  FS.is_dir (fs st') (Path.child proj_dir "02_Work") = true
  /\ FS.is_dir (fs st') (Path.child proj_dir "03_Final") = true
  /\ (forall p k, FS.lookup (fs st) p = Some k ->
                  FS.lookup (fs st') p = Some k)
  /\ fs (snd (process_project E proj_dir codec st')) = fs st'.
Proof.
  intros Hinc Hw Hf st'.
  destruct (process_project_skip E proj_dir codec st
              (incomplete_spec _ _ Hinc)) as (warning & Hrun & _).
  assert (Hfs : fs st' = fs (entered proj_dir st)).
  { subst st'. now rewrite Hrun. }
  assert (Hinc' : incomplete (fs st') proj_dir = true).
  { now rewrite Hfs, incomplete_entered. }
  destruct (process_project_skip E proj_dir codec st'
              (incomplete_spec _ _ Hinc')) as (warning' & Hrun' & _).
  rewrite Hrun'. unfold entered at 1. cbn [snd fs]. rewrite !Hfs.
  unfold entered, work_dir, final_dir. cbn [fs].
  assert (Hdw : FS.is_dir (FS.mkdir (FS.mkdir (fs st)
                   (Path.child proj_dir "02_Work"))
                   (Path.child proj_dir "03_Final"))
                  (Path.child proj_dir "02_Work") = true).
  { apply is_dir_mkdir_keep, is_dir_mkdir, Hw. }
  assert (Hdf : FS.is_dir (FS.mkdir (FS.mkdir (fs st)
                   (Path.child proj_dir "02_Work"))
                   (Path.child proj_dir "03_Final"))
                  (Path.child proj_dir "03_Final") = true).
  { apply is_dir_mkdir. now rewrite is_file_mkdir. }
  split; [exact Hdw|]. split; [exact Hdf|]. split.
  - intros p k Hp. rewrite !lookup_mkdir. now rewrite Hp.
  - rewrite (mkdir_present _ _ (exists_of_is_dir _ _ Hdw)).
    now rewrite (mkdir_present _ _ (exists_of_is_dir _ _ Hdf)).
Qed.

Lemma skipped_project_directories_witness :
  let E := Fixture.env Fixture.progress_lines Fixture.never in
  let st := Fixture.start Fixture.batch_fs in
  let st' := snd (process_project E "/srv/VID/B" "h265_nvenc" st) in
  FS.is_dir (fs st') (Path.child "/srv/VID/B" "02_Work") = true
  /\ FS.is_dir (fs st') (Path.child "/srv/VID/B" "03_Final") = true
  /\ (forall p k, FS.lookup (fs st) p = Some k ->
                  FS.lookup (fs st') p = Some k)
  /\ fs (snd (process_project E "/srv/VID/B" "h265_nvenc" st')) = fs st'.
Proof.
  intros E st.
  apply (skipped_project_directories E "/srv/VID/B" "h265_nvenc" st);
    reflexivity.
Defined.

(** ** A batch without a complete project *)

Lemma for_each_incomplete (E : Env) (codec : string) (ds : list string) :
  forall st : state,
    forallb (incomplete (fs st)) ds = true ->
    exists st' evs,
      for_each (fun d => process_project E d codec) ds st = (Ok tt, st')
      /\ log st' = (log st ++ evs)%list
      /\ forallb is_print evs = true
      /\ List.length evs = (2 * List.length ds)%nat
      /\ (forall p, FS.is_file (fs st') p = FS.is_file (fs st) p).
Proof.
  induction ds as [|d ds IH]; intros st Hall.
  - exists st, []. cbn [for_each]. unfold ret.
    now rewrite app_nil_r.
  - cbn [forallb] in Hall. apply andb_prop in Hall as [Hd Hds].
    destruct (process_project_skip E d codec st (incomplete_spec _ _ Hd))
      as (warning & Hrun & _).
    set (st1 := mkState (fs (entered d st))
                  (log (entered d st) ++ [Print warning])) in *.
    assert (Hds1 : forallb (incomplete (fs st1)) ds = true).
    { rewrite forallb_forall in *. intros x Hx.
      subst st1. cbn [fs]. rewrite incomplete_entered. now apply Hds. }
    destruct (IH st1 Hds1) as (st' & evs & Hloop & Hlog & Hpr & Hlen & Hfile).
    exists st', (Print (String Py.LF "🚀 Processing project: " ++ Path.name d)
                 :: Print warning :: evs).
    split; [cbn [for_each]; unfold bind; now rewrite Hrun|].
    split.
    { rewrite Hlog. subst st1. cbn [log entered].
      now rewrite <- !app_assoc. }
    split; [exact Hpr|]. split; [cbn [List.length]; lia|].
    intros p. rewrite Hfile. subst st1. cbn [fs]. apply is_file_entered.
Qed.

(** X15.  When [VID] is a directory and none of its projects is
    complete (and in no project [02_Work] or [03_Final] is a regular
    file), [main] ends normally, with exit status 0: it prints two lines
    per project and nothing else happens, no probe, no encoder run and no
    regular file written. *)
Theorem batch_of_incomplete_projects (E : Env) (root : string)
    (argv : list string) (st : state) :
  FS.is_dir (fs st) (vid_dir root) = true ->
  forallb (incomplete (fs st)) (proj_dirs root st) = true ->
  forallb (fun d => enterable d (fs st)) (proj_dirs root st) = true ->
  fst (main E root argv st) = Ok tt
  /\ exit_status (fst (main E root argv st)) = 0
  /\ forallb is_print (events_of (main E root argv) st) = true
  /\ List.length (events_of (main E root argv) st)
     = (2 * List.length (proj_dirs root st))%nat
  /\ (forall p, FS.is_file (fs (snd (main E root argv st))) p
                = FS.is_file (fs st) p).
Proof.
  intros Hvid Hall _.
  destruct (for_each_incomplete E (codec_of_argv argv) _ st Hall)
    as (st' & evs & Hloop & Hlog & Hpr & Hlen & Hfile).
  unfold events_of.
  rewrite (main_present E root argv st (exists_of_is_dir _ _ Hvid)), Hloop.
  cbn [fst snd].
  rewrite Hlog, skipn_app_length. auto.
Qed.

Lemma batch_of_incomplete_projects_witness :
  let E := Fixture.env Fixture.progress_lines Fixture.never in
  let st := Fixture.start incomplete_fs in
  fst (main E "/srv" ["process_videos.py"] st) = Ok tt
  /\ exit_status (fst (main E "/srv" ["process_videos.py"] st)) = 0
  /\ forallb is_print (events_of (main E "/srv" ["process_videos.py"]) st)
     = true
  /\ List.length (events_of (main E "/srv" ["process_videos.py"]) st)
     = (2 * List.length (proj_dirs "/srv" st))%nat
  /\ (forall p, FS.is_file (fs (snd (main E "/srv" ["process_videos.py"] st))) p
                = FS.is_file (fs st) p).
Proof.
  intros E st.
  apply (batch_of_incomplete_projects E "/srv" ["process_videos.py"] st);
    reflexivity.
Defined.

(** ** Failures inside the pipeline *)

Lemma bind_raise {A B : Type} (c : M A) (k : A -> M B) (e : exn)
    (st st' : state) :
  c st = (Raise e, st') -> bind c k st = (Raise e, st').
Proof. intros H. unfold bind. now rewrite H. Qed.




Lemma launches_closing (E : Env) (total_duration : option F64.float) :
  launches (closing E total_duration) = [].
Proof.
  unfold closing. destruct total_duration as [total|]; [|reflexivity].
  now destruct (tracking E (Some total)).
Qed.

Lemma launches_shown (E : Env) (total_duration : option F64.float)
    (lines : list string) :
  launches (shown E total_duration lines) = [].
Proof.
  unfold shown. destruct total_duration as [total|]; [|reflexivity].
  destruct (tracking E (Some total)); [|reflexivity].
  apply launches_refreshes.
Qed.

(** Any run: one launch, the file system the command leaves, and an
    outcome decided by the stream and the return code. *)
Lemma run_ffmpeg_any (E : Env) (cmd : list string)
    (total_duration : option F64.float) (desc : string) (st : state) :
  exists r evs,
    run_ffmpeg_with_progress E cmd total_duration desc st
    = (r, mkState (snd (ffmpeg E (fs st) cmd)) (log st ++ evs))
    /\ launches evs = [(cmd, total_duration, desc)]
    /\ (forall e, r = Raise e ->
          e = OverflowError
          \/ (e = CalledProcessError (returncode_of E st cmd) cmd
              /\ returncode_of E st cmd <> 0))
    /\ (returncode_of E st cmd <> 0 -> exists e, r = Raise e)
    /\ (stream_ok (stream_of E st cmd) = true ->
        r = exit_outcome (returncode_of E st cmd) cmd).
Proof.
  destruct (run_ffmpeg_cases E cmd total_duration desc st)
    as (r & Hloop & Hrun).
  destruct (for_each_on_line E total_duration (stream_of E st cmd)
              (mkState (snd (ffmpeg E (fs st) cmd))
                 (log st ++ [Print ("▶ Running: " ++ Py.join " " cmd);
                             Launch cmd total_duration desc])))
    as (r' & Hr' & Hokr & _).
  rewrite Hloop in Hr'. injection Hr' as <-.
  cbn [fs log] in Hrun.
  destruct r as [[]|e0].
  - exists (exit_outcome (returncode_of E st cmd) cmd),
      ([Print ("▶ Running: " ++ Py.join " " cmd);
        Launch cmd total_duration desc]
       ++ shown E total_duration (stream_of E st cmd)
       ++ closing E total_duration)%list.
    split; [rewrite Hrun; now rewrite <- !app_assoc|].
    split.
    { cbn [app launches].
      now rewrite launches_app, launches_shown, launches_closing. }
    unfold exit_outcome.
    destruct (Z.eqb_spec (returncode_of E st cmd) 0) as [H0|Hne].
    + split; [discriminate|]. split; [congruence|reflexivity].
    + split; [intros e [= <-]; right; now split|].
      split; [eauto|reflexivity].
  - exists (Raise e0),
      ([Print ("▶ Running: " ++ Py.join " " cmd);
        Launch cmd total_duration desc]
       ++ shown E total_duration (stream_of E st cmd))%list.
    split; [rewrite Hrun; now rewrite <- !app_assoc|].
    split.
    { cbn [app launches]. now rewrite launches_shown. }
    split.
    { intros e [= <-]. left. now apply for_each_on_line_raise in Hloop. }
    split; [eauto|].
    intros Hok. now apply Hokr in Hok.
Qed.

(** X17.  When the normalization exits with a non-zero status the
    project ends with an exception after that one encoder run: the
    [CalledProcessError] of the normalization command when its stream
    converts ([OverflowError] is the only other possibility); the
    composite is not started.  (For sub-directory names not taken by
    regular files, a finite duration and lines of at most 4300
    characters.) *)
Theorem normalization_failure (E : Env) (proj_dir codec : string)
    (st : state) (main_video : string) (others : list string)
    (out : string) (raw_dur : F64.float) :
  let cmd := normalize_cmd main_video (normalized_video proj_dir) in
  let rc := snd (fst (ffmpeg E (fs (entered proj_dir st)) cmd)) in
  let lines := fst (fst (ffmpeg E (fs (entered proj_dir st)) cmd)) in
  FS.glob_mp4 (fs st) proj_dir = main_video :: others ->
  FS.exists_ (fs st) (Path.child proj_dir "intro.png") = true ->
  FS.exists_ (fs st) (Path.child proj_dir "outro.png") = true ->
  enterable proj_dir (fs st) = true ->
  ffprobe E (fs (entered proj_dir st)) (duration_cmd main_video) = (0, out) ->
  py_float E (Py.strip out) = Some raw_dur ->
  finite_total (Some raw_dur) = true ->
  rc <> 0 ->
  short_lines lines = true ->
  exists e,
    fst (process_project E proj_dir codec st) = Raise e
    /\ (e = OverflowError \/ e = CalledProcessError rc cmd)
    /\ (stream_ok lines = true -> e = CalledProcessError rc cmd)
    /\ launches (events_of (process_project E proj_dir codec) st)
       = [(cmd, Some raw_dur, "Normalizing")]
    /\ fs (snd (process_project E proj_dir codec st))
       = snd (ffmpeg E (fs (entered proj_dir st)) cmd).
Proof.
  intros cmd rc lines Hg Hi Ho _ Hp Hf _ Hrc _.
  assert (Hlog : log (entered proj_dir st)
                 = (log st ++ [Print (String Py.LF "🚀 Processing project: "
                                      ++ Path.name proj_dir)])%list)
    by reflexivity.
  unfold events_of.
  rewrite (process_project_complete E proj_dir codec st _ _ Hg Hi Ho).
  unfold run_pipeline.
  rewrite (bind_ok _ _ _ _ _ (get_duration_ok E _ out _ _ Hp Hf)).
  match goal with
  | |- context [bind (run_ffmpeg_with_progress E ?c ?td ?desc) ?k ?s] =>
      destruct (run_ffmpeg_any E c td desc s)
        as (r & evs & Hrun & Hl & Hexn & Hfail & Hok)
  end.
  unfold returncode_of, stream_of in Hexn, Hfail, Hok.
  cbn [fs log] in *. fold cmd in Hrun, Hexn, Hfail, Hok.
  fold rc in Hexn, Hfail, Hok. fold lines in Hok.
  destruct (Hfail Hrc) as (e & ->).
  exists e. fold cmd.
  rewrite (bind_raise _ _ _ _ _ Hrun). cbn [fst snd fs log].
  split; [reflexivity|].
  split; [destruct (Hexn e eq_refl) as [->|[-> _]]; auto|].
  split.
  { intros Hs. specialize (Hok Hs). unfold exit_outcome in Hok.
    destruct (rc =? 0); congruence. }
  split; [|reflexivity].
  rewrite Hlog, <- !app_assoc, skipn_app_length.
  cbn [app launches]. exact Hl.
Qed.

Lemma normalization_failure_witness :
  let E := Fixture.env Fixture.progress_lines (fun _ => true) in
  let st := Fixture.start Fixture.demo_fs in
  let cmd := normalize_cmd "Demo/main.mp4" (normalized_video "Demo") in
  exists e,
    fst (process_project E "Demo" "h264" st) = Raise e
    /\ (e = OverflowError \/ e = CalledProcessError 1 cmd)
    /\ (stream_ok Fixture.progress_lines = true
        -> e = CalledProcessError 1 cmd)
    /\ launches (events_of (process_project E "Demo" "h264") st)
       = [(cmd, Some (F64.round_Z 20), "Normalizing")]
    /\ fs (snd (process_project E "Demo" "h264" st))
       = snd (ffmpeg E (fs (entered "Demo" st)) cmd).
Proof.
  intros E st cmd.
  apply (normalization_failure E "Demo" "h264" st "Demo/main.mp4" []
           (Fixture.nl "20.0") (F64.round_Z 20)); try reflexivity.
  vm_compute. discriminate.
Defined.

(** ** The exceptions of a project and of the batch *)

Section RaisesOnly.

Variable P : exn -> Prop.










End RaisesOnly.















(** ** A project that renders, in general *)



(** ** White space around the output of a probe *)

Lemma lstrip_app_blank (a r : string) :
  blank a = true -> Py.lstrip (a ++ r) = Py.lstrip r.
Proof.
  induction a as [|x a IH]; [reflexivity|].
  cbn [blank append Py.lstrip]. intros H. apply andb_prop in H as [Hx Ha].
  now rewrite Hx, IH.
Qed.

Lemma strip_padded (a s b : string) :
  blank a = true -> plain s = true -> blank b = true ->
  Py.strip (a ++ s ++ b) = s.
Proof.
  intros Ha Hs Hb. unfold Py.strip. rewrite (lstrip_app_blank a _ Ha).
  destruct s as [|x s].
  - cbn [append]. now rewrite (lstrip_blank b Hb).
  - pose proof Hs as Hs'. cbn [plain] in Hs'.
    apply andb_prop in Hs' as [Hx _]. apply negb_true_iff in Hx.
    cbn [append Py.lstrip]. rewrite Hx.
    change (String x (s ++ b)) with (String x s ++ b).
    rewrite rstrip_app, (rstrip_blank b Hb). now apply rstrip_plain.
Qed.

(** X21.  White space around the value a probe prints, the final line
    feed in particular, does not count: [get_duration] converts the
    value itself, and raises [ValueError] when that is no number. *)
Theorem get_duration_ignores_padding (E : Env) (video_path : string)
    (a s b : string) (st : state) :
  blank a = true -> plain s = true -> blank b = true ->
  ffprobe E (fs st) (duration_cmd video_path) = (0, a ++ s ++ b) ->
  get_duration E video_path st
  = (match py_float E s with
     | Some x => Ok x
     | None => Raise ValueError
     end,
     mkState (fs st) (log st ++ [Probe (duration_cmd video_path)])).
Proof.
  intros Ha Hs Hb Hp. unfold get_duration.
  rewrite (bind_ok _ _ _ _ _ (run_checked_ok E _ _ st Hp)).
  rewrite (strip_padded a s b Ha Hs Hb).
  now destruct (py_float E s).
Qed.

Lemma get_duration_ignores_padding_witness :
  let E := probe_env 0 (" " ++ "12.5" ++ String Py.CR (String Py.LF "")) in
  let st := Fixture.start Fixture.demo_fs in
  get_duration E "Demo/main.mp4" st
  = (match py_float E "12.5" with
     | Some x => Ok x
     | None => Raise ValueError
     end,
     mkState (fs st) (log st ++ [Probe (duration_cmd "Demo/main.mp4")])).
Proof.
  intros E st.
  apply (get_duration_ignores_padding E "Demo/main.mp4"
           " " "12.5" (String Py.CR (String Py.LF "")) st); reflexivity.
Defined.
